(** * Session association and mutation guard of creep-vue-client

    A shallow embedding of the server's session module (the dual-token
    cookie/header protocol), of the member registry it consults through
    the [refreshSub] option, and of the server's 401/403/404 error
    handler, together with the properties the specification states about
    them.

    Conventions of the embedding:
    - a JavaScript value that is either [undefined] or a string (a token
      subject, an environment variable) is an [option string];
    - callbacks [done(err, value)] that are invoked exactly once are
      function results of type [Error + value];
    - the continuation [next] of a middleware may be invoked more than
      once, so a middleware run produces an ordered log of events
      (cookie writes on the response and [next] invocations);
    - [Date.now()] is one reading [now] (milliseconds) per request. *)

From Stdlib Require Import String Ascii List ZArith Bool Lia.
From stdpp Require Import base option list gmap strings.

Local Open Scope string_scope.
Local Open Scope Z_scope.

(** ** JavaScript odds and ends *)

(** Truthiness of a string: only the empty string is falsy. *)
Definition truthy (s : string) : bool := negb (String.eqb s "").

(** Truthiness of [undefined | string]. *)
Definition truthy_opt (v : option string) : bool :=
  match v with
  | Some s => truthy s
  | None => false
  end.

(** [a || b] on [undefined | string] with a string default. *)
Definition js_or (a : option string) (b : string) : string :=
  match a with
  | Some s => if truthy s then s else b
  | None => b
  end.

(** Strict equality [===] on [undefined | string]. *)
Definition sub_eqb (a b : option string) : bool :=
  match a, b with
  | Some x, Some y => String.eqb x y
  | None, None => true
  | _, _ => false
  end.

Definition lower_ascii (c : ascii) : ascii :=
  let n := nat_of_ascii c in
  if ((65 <=? n)%nat && (n <=? 90)%nat)%bool then ascii_of_nat (n + 32) else c.

Fixpoint lower (s : string) : string :=
  match s with
  | EmptyString => EmptyString
  | String c r => String (lower_ascii c) (lower r)
  end.

(** The numbers that reach [almostExpired]: integers, or [NaN]. *)
Inductive JsNum :=
| NaN
| Num (z : Z).

(** [a + b] where [b] may be [undefined] ([x + undefined] is [NaN]). *)
Definition js_add (a : Z) (b : option Z) : JsNum :=
  match b with
  | Some z => Num (a + z)
  | None => NaN
  end.

(** [Math.floor(x / d)] for a positive integer [d]. *)
Definition js_floor_div (x : JsNum) (d : Z) : JsNum :=
  match x with
  | Num z => Num (z / d)
  | NaN => NaN
  end.

(** [x >= y]: every comparison with [NaN] is false. *)
Definition js_ge (x : JsNum) (y : Z) : bool :=
  match x with
  | Num z => y <=? z
  | NaN => false
  end.

(** ** Credentials *)

(** [scope] is a single string or an array of strings. *)
Inductive Scope :=
| ScopeOne (s : string)
| ScopeMany (l : list string).

Record Claims := mkClaims {
  jti : string;
  iss : string;
  sub : option string;
  scope : Scope;
  iat : Z;
  exp : Z
}.

(** The text of a credential as it travels in a cookie or a header field:
    either a compact token (the key it was signed with and its payload)
    or any other text. *)
Inductive Token :=
| Jwt (key : string) (payload : Claims)
| Opaque (text : string).

Definition token_truthy (t : Token) : bool :=
  match t with
  | Jwt _ _ => true
  | Opaque s => truthy s
  end.

(** Modelled from the spec: the kinds of verification error of the token
    codec (section 4.1); the codec is not part of the sources. *)
Inductive VerificationError :=
| BadSignature
| Expired
| IssuerMismatch
| Malformed.

(** Errors that reach a continuation.  [httpErrors(status, message)]
    builds an object with a [status].  The codec's error objects are handed
    on as the codec made them: they have a name and a message and no
    [status], and the session module attaches none.  A [TypeError] has no
    [status] either; [Rejected] stands for a rejection reason of the
    registry other than these. *)
Inductive Error :=
| HttpError (status : Z) (message : string)
| JsonWebTokenError (kind : VerificationError)
| SignError (message : string)
| TypeError (message : string)
| Rejected (reason : string).

Definition httpErrors (status : Z) (message : string) : Error :=
  HttpError status message.

Definition err_status (e : Error) : option Z :=
  match e with
  | HttpError s _ => Some s
  | _ => None
  end.

Definition err_message (e : Error) : string :=
  match e with
  | HttpError _ m => m
  | JsonWebTokenError BadSignature => "invalid signature"
  | JsonWebTokenError Expired => "jwt expired"
  | JsonWebTokenError IssuerMismatch => "jwt issuer invalid"
  | JsonWebTokenError Malformed => "jwt malformed"
  | SignError m => m
  | TypeError m => m
  | Rejected r => r
  end.

Module TokenCodec.

(** Modelled from the spec: the token codec ([jsonwebtoken], section 4.1)
    is not part of the sources.  [sign] adds [iat] and [exp] (whole
    seconds) to the claims and fails without a signing secret. *)
Definition sign (now : Z) (jti iss : string) (sub : option string)
    (scope : Scope) (secret : string) (expiresIn : Z) : Error + Token :=
  if truthy secret then
    let iat := now / 1000 in
    inr (Jwt secret (mkClaims jti iss sub scope iat (iat + expiresIn)))
  else inl (SignError "secretOrPrivateKey must have a value").

(** Modelled from the spec: [verify] of the token codec.  Validity is a
    function of signature, expiry (whole seconds) and issuer. *)
Definition verify (now : Z) (jwt : option Token) (secret issuer : string)
    : Error + Claims :=
  match jwt with
  | Some (Jwt key payload) =>
      if negb (String.eqb key secret) then inl (JsonWebTokenError BadSignature)
      else if exp payload <=? now / 1000 then inl (JsonWebTokenError Expired)
      else if negb (String.eqb (iss payload) issuer)
           then inl (JsonWebTokenError IssuerMismatch)
      else inr payload
  | _ => inl (JsonWebTokenError Malformed)
  end.

(** Modelled from the spec: [decode] reads the payload without checking it. *)
Definition decode (jwt : Token) : option Claims :=
  match jwt with
  | Jwt _ payload => Some payload
  | Opaque _ => None
  end.

End TokenCodec.

(** ** The member registry (models/member.model.js) *)

Module Member.

Record t := mk {
  handle : string;
  trackers : list string
}.

(** The module's state: the [trackerToMember] map, and the source of
    [Math.random] as the sequence of strings [generateTracker] derives
    from it (up to five base-36 characters each). *)
Record Store := mkStore {
  trackerToMember : gmap string t;
  random : nat -> string;
  drawn : nat
}.

Definition constructor (handle0 : string) (tracker : string) : t :=
  mk handle0 (if truthy tracker then [tracker] else []).

Definition generateTracker (s : Store) : string * Store :=
  (random s (drawn s), mkStore (trackerToMember s) (random s) (S (drawn s))).

Definition insert (tracker : string) (handle0 : option string) (s : Store)
    : t * Store :=
  let '(h, s1) :=
    match handle0 with
    | Some h => if truthy h then (h, s) else generateTracker s
    | None => generateTracker s
    end in
  let member := constructor h tracker in
  let m1 := <[handle member := member]> (trackerToMember s1) in
  let m2 := <[tracker := member]> m1 in
  (member, mkStore m2 (random s1) (drawn s1)).

(** [trackerToMember.get(tracker)]; every key ever set is a string, so
    the [undefined] key is never found. *)
Definition findByTracker (tracker : option string) (s : Store) : option t :=
  match tracker with
  | Some k => trackerToMember s !! k
  | None => None
  end.

Definition getByHandle (handle0 : string) (s : Store) : option t :=
  trackerToMember s !! handle0.

Definition blackListTracker (tracker : string) (s : Store) : Store :=
  mkStore (delete tracker (trackerToMember s)) (random s) (drawn s).

End Member.

(** ** The session module *)

(** [req.session]; an absent field reads as [undefined] / falsy. *)
Record Session := mkSession {
  session_sub : option string;
  sensitive : bool;
  moderate : bool;
  mutation : bool;
  decoded : option Claims
}.

Definition empty_session : Session := mkSession None false false false None.

(** The part of an inbound request the protocol reads.  The value of the
    [Authorization] header is kept as its fields between single spaces
    (what [split(' ')] returns); [req.cookies] is cookie-parser's object. *)
Record Request := mkRequest {
  authorization : option (list Token);
  cookies : gmap string Token;
  secure : bool
}.

(** What the external collaborator can read and change: the registry and
    [req.member]. *)
Record World := mkWorld {
  store : Member.Store;
  req_member : option Member.t
}.

Module Options.

Record t := mk {
  iss : string;
  secret : string;
  refreshMaxAge : Z;
  sessionMaxAge : Z;
  sessionEarlyRefresh : Z;
  (** [refreshSub(req, prevSub)]: a promise, resolved ([inr]) or
      rejected ([inl]). *)
  refreshSub : Request -> option string -> World -> (Error + option string) * World
}.

End Options.

Record CookieOptions := mkCookieOptions {
  httpOnly : bool;
  cookie_secure : bool;
  maxAge : option Z
}.

(** What a middleware does that its caller can observe, in order. *)
Inductive Event :=
| SetCookie (name : string) (value : Token) (opts : CookieOptions)
| Next (err : option Error).

(** The surroundings of one request: the clock and the source of [uuidV4]. *)
Record Env := mkEnv {
  now : Z;
  uuid_source : nat -> string
}.

Record State := mkState {
  session : Session;
  log : list Event;
  uuids : nat;
  world : World
}.

(** Computations of the session module thread the [State]. *)
Definition M (A : Type) : Type := State -> A * State.

#[global] Instance M_ret : MRet M := fun A a st => (a, st).
#[global] Instance M_bind : MBind M :=
  fun A B f m st => let '(a, st1) := m st in f a st1.

Definition emit (e : Event) : M unit :=
  fun st => (tt, mkState (session st) (log st ++ [e]) (uuids st) (world st)).

Definition get_session : M Session := fun st => (session st, st).

Definition put_session (s : Session) : M unit :=
  fun st => (tt, mkState s (log st) (uuids st) (world st)).

Definition with_world {A} (f : World -> A * World) : M A :=
  fun st => let '(a, w) := f (world st) in
            (a, mkState (session st) (log st) (uuids st) w).

Definition uuidV4 (env : Env) : M string :=
  fun st => (uuid_source env (uuids st),
             mkState (session st) (log st) (S (uuids st)) (world st)).

Definition res_cookie (name : string) (value : Token) (opts : CookieOptions)
    : M unit :=
  emit (SetCookie name value opts).

Definition next (err : option Error) : M unit := emit (Next err).

(** RFC6265 compliant names. *)
Definition cookieNames_refresh : string := "refresh.jwt".
Definition cookieNames_session : string := "session.jwt".

(** [s.split(' ')]. *)
Fixpoint split_space (s : string) : list string :=
  match s with
  | EmptyString => [EmptyString]
  | String c r =>
      if Ascii.eqb c " "%char then EmptyString :: split_space r
      else match split_space r with
           | w :: ws => String c w :: ws
           | [] => [String c EmptyString]
           end
  end.

(** The header value is the pieces of [h] joined by single spaces. *)
Definition header_truthy (h : list Token) : bool :=
  match h with
  | [] => false
  | [Opaque s] => truthy s
  | _ => true
  end.

Definition header_split (h : list Token) : list Token :=
  flat_map (fun piece =>
              match piece with
              | Opaque s => map Opaque (split_space s)
              | Jwt _ _ => [piece]
              end) h.

(** [/^Bearer$/i.test(scheme)]. *)
Definition test_Bearer (scheme : option Token) : bool :=
  match scheme with
  | Some (Opaque s) => String.eqb (lower s) "bearer"
  | _ => false
  end.

(** Helper to read and validate a jwt in the Authentication Bearer header:
    [done(err, decoded or undefined)]. *)
Definition authenticateHeaderIfPresent (env : Env) (req : Request)
    (options : Options.t) : Error + option Claims :=
  match authorization req with
  | None => inr None
  | Some h =>
      if negb (header_truthy h) then inr None
      else
        let fields := header_split h in
        let scheme := fields !! 0%nat in
        let jwt := fields !! 1%nat in
        let rest := drop 2 fields in
        if negb (Nat.eqb (length rest) 0) then
          inl (httpErrors 401 "credentials bad format")
        else if negb (test_Bearer scheme) then
          inl (httpErrors 401 "credentials bad scheme")
        else
          match TokenCodec.verify (now env) jwt (Options.secret options)
                  (Options.iss options) with
          | inl err => inl err
          | inr payload => inr (Some payload)
          end
  end.

(** Helper to read and validate a jwt in a cookie. *)
Definition authenticateCookie (env : Env) (req : Request) (name : string)
    (options : Options.t) : Error + option Claims :=
  match cookies req !! name with
  | None => inr None
  | Some jwt =>
      if negb (token_truthy jwt) then inr None
      else if negb (token_truthy jwt) then
        inl (httpErrors 401 "credentials required")
      else
        match TokenCodec.verify (now env) (Some jwt) (Options.secret options)
                (Options.iss options) with
        | inl err => inl err
        | inr payload => inr (Some payload)
        end
  end.

(** Helper to create a new refresh jwt and return it in a cookie. *)
Definition newRefreshCookie (env : Env) (req : Request) (sub0 : option string)
    (options : Options.t) : M (Error + Token) :=
  id ← uuidV4 env;
  match TokenCodec.sign (now env) id (Options.iss options) sub0
          (ScopeOne "refresh") (Options.secret options)
          (Options.refreshMaxAge options / 1000) with
  | inl err => mret (inl err)
  | inr jwt =>
      _ ← res_cookie cookieNames_refresh jwt
            (mkCookieOptions true (secure req)
               (Some (Options.refreshMaxAge options)));
      mret (inr jwt)
  end.

(** Helper to create a new session jwt and return it in a cookie. *)
Definition newSessionCookie (env : Env) (req : Request) (sub0 : option string)
    (options : Options.t) : M (Error + Token) :=
  id ← uuidV4 env;
  match TokenCodec.sign (now env) id (Options.iss options) sub0
          (ScopeOne "session") (Options.secret options)
          (Options.sessionMaxAge options / 1000) with
  | inl err => mret (inl err)
  | inr jwt =>
      _ ← res_cookie cookieNames_session jwt
            (mkCookieOptions false (secure req) None);
      mret (inr jwt)
  end.

(** Helper to call both, then continue with the new session jwt. *)
Definition newRefreshAndSessionCookie (env : Env) (req : Request)
    (sub0 : option string) (options : Options.t) : M (Error + Token) :=
  r ← newRefreshCookie env req sub0 options;
  match r with
  | inl err => mret (inl err)
  | inr _ => newSessionCookie env req sub0 options
  end.

(** The second argument of [almostExpired] as its callers supply it: the
    options object, or a bare number. *)
Inductive OptionsArg :=
| WholeOptions (o : Options.t)
| BareNumber (n : Z).

(** [options.sessionEarlyRefresh]: a number has no such property. *)
Definition get_sessionEarlyRefresh (options : OptionsArg) : option Z :=
  match options with
  | WholeOptions o => Some (Options.sessionEarlyRefresh o)
  | BareNumber _ => None
  end.

(** Helper returns true if token is nearing time it will expire. *)
Definition almostExpired (env : Env) (decoded0 : Claims) (options : OptionsArg)
    : bool :=
  js_ge (js_floor_div (js_add (now env) (get_sessionEarlyRefresh options)) 1000)
        (exp decoded0).

(** What [promoteDecodedToSession] returns: [sub], and the permissions
    found in the scope. *)
Record Promoted := mkPromoted {
  p_sub : option string;
  p_sensitive : bool;
  p_moderate : bool
}.

Definition scopeArray (s : Scope) : list string :=
  match s with
  | ScopeMany l => l
  | ScopeOne x => [x]
  end.

Definition includes (l : list string) (x : string) : bool :=
  existsb (String.eqb x) l.

(** Helper to promote portions of decoded JWT to the session object;
    reading [decoded.sub] of [undefined] throws. *)
Definition promoteDecodedToSession (decoded0 : option Claims) : Error + Promoted :=
  match decoded0 with
  | None => inl (TypeError "Cannot read property 'sub' of undefined")
  | Some d =>
      let arr := scopeArray (scope d) in
      inr (mkPromoted (sub d) (includes arr "sensitive") (includes arr "moderate"))
  end.

(** [_.extend(req.session, promoted)]: [sub] is assigned, a permission
    only when it was found. *)
Definition extend (s : Session) (p : Promoted) : Session :=
  mkSession (p_sub p)
            (if p_sensitive p then true else sensitive s)
            (if p_moderate p then true else moderate s)
            (mutation s)
            (decoded s).

Definition set_decoded (s : Session) (d : option Claims) : Session :=
  mkSession (session_sub s) (sensitive s) (moderate s) (mutation s) d.

Definition set_mutation (s : Session) : Session :=
  mkSession (session_sub s) (sensitive s) (moderate s) true (decoded s).

Definition cookie_truthy (req : Request) (name : string) : bool :=
  match cookies req !! name with
  | Some t => token_truthy t
  | None => false
  end.

(** [scope === 'refresh']: an array is never equal to a string. *)
Definition scope_is_refresh (s : Scope) : bool :=
  match s with
  | ScopeOne x => String.eqb x "refresh"
  | ScopeMany _ => false
  end.

Definition is_Some_bool {A} (o : option A) : bool :=
  match o with
  | Some _ => true
  | None => false
  end.

Definition result_err {A} (r : Error + A) : option Error :=
  match r with
  | inl e => Some e
  | inr _ => None
  end.

Definition result_val {A} (r : Error + option A) : option A :=
  match r with
  | inl _ => None
  | inr v => v
  end.

Section Association.

Variable env : Env.
Variable options : Options.t.
Variable req : Request.

(** Helper to handle cases where no previous session existed or previous
    session was revoked.  The result is an exception thrown by the
    callback, if any. *)
Definition nextWithNewSession (validSub : option string) : M (option Error) :=
  r ← newRefreshAndSessionCookie env req validSub options;
  match r with
  | inl err => _ ← next (Some err); mret None
  | inr jwt =>
      s ← get_session;
      let d := TokenCodec.decode jwt in
      _ ← put_session (set_decoded s d);
      match promoteDecodedToSession d with
      | inl e => mret (Some e)
      | inr p =>
          s1 ← get_session;
          _ ← put_session (extend s1 p);
          _ ← next None;
          mret None
      end
  end.

(** The callback of the re-verification of the refresh cookie (an almost
    expired session token drives the context).  There is no [return]
    after the failure continuation. *)
Definition refreshReverified (r : Error + option Claims) : M unit :=
  let err := result_err r in
  let refreshDecoded := result_val r in
  s ← get_session;
  _ ← (if is_Some_bool err
          || negb (sub_eqb (session_sub s) (refreshDecoded ≫= sub))
       then
         _ ← put_session empty_session;
         next (Some (default (httpErrors 401 "credentials mismatch") err))
       else mret tt);
  s1 ← get_session;
  r2 ← newSessionCookie env req (session_sub s1) options;
  next (result_err r2).

(** The callback of the verification of the session cookie (the refresh
    token drives the context). *)
Definition sessionVerified (r : Error + option Claims) : M unit :=
  let err := result_err r in
  s ← get_session;
  match err, result_val r with
  | None, Some sessionDecoded =>
      if sub_eqb (sub sessionDecoded) (session_sub s)
         && negb (almostExpired env sessionDecoded
                    (BareNumber (Options.sessionEarlyRefresh options)))
      then next None
      else
        r2 ← newSessionCookie env req (session_sub s) options;
        next (result_err r2)
  | _, _ =>
      r2 ← newSessionCookie env req (session_sub s) options;
      next (result_err r2)
  end.

(** Helper to handle cases where previous session existed, was valid, and
    was not revoked.  The result is an exception thrown synchronously. *)
Definition nextWithExistingSession (decoded0 : option Claims) : M (option Error) :=
  match promoteDecodedToSession decoded0 with
  | inl e => mret (Some e)
  | inr p =>
      s ← get_session;
      _ ← put_session (set_decoded (extend s p) decoded0);
      if negb (cookie_truthy req cookieNames_refresh) then
        _ ← next None; mret None
      else
        s1 ← get_session;
        match decoded s1 with
        | None => mret (Some (TypeError "Cannot read property 'scope' of undefined"))
        | Some d =>
            if negb (scope_is_refresh (scope d)) then
              if negb (almostExpired env d
                         (BareNumber (Options.sessionEarlyRefresh options)))
              then _ ← next None; mret None
              else
                _ ← refreshReverified
                      (authenticateCookie env req cookieNames_refresh options);
                mret None
            else if scope_is_refresh (scope d) then
              _ ← sessionVerified
                    (authenticateCookie env req cookieNames_session options);
              mret None
            else _ ← next None; mret None
        end
  end.

(** [options.refreshSub(req, prevSub).then(onValid).catch(next)]. *)
Definition revocationCheck (prevSub : option string)
    (onValid : option string -> M (option Error)) : M unit :=
  p ← with_world (Options.refreshSub options req prevSub);
  match p with
  | inl reason => next (Some reason)
  | inr validSub =>
      thrown ← onValid validSub;
      match thrown with
      | Some reason => next (Some reason)
      | None => mret tt
      end
  end.

Definition doRouteAssociateAndRefresh : M unit :=
  s ← get_session;
  if truthy_opt (session_sub s) then next None
  else
    match authenticateHeaderIfPresent env req options with
    | inl err => next (Some err)
    | inr (Some decoded0) =>
        revocationCheck (sub decoded0)
          (fun validSub =>
             if sub_eqb validSub (sub decoded0) then
               s1 ← get_session;
               _ ← put_session (set_mutation s1);
               nextWithExistingSession (Some decoded0)
             else nextWithNewSession validSub)
    | inr None =>
        match authenticateCookie env req cookieNames_refresh options with
        | inl err => next (Some err)
        | inr decoded0 =>
            revocationCheck (decoded0 ≫= sub)
              (fun validSub =>
                 if sub_eqb validSub (decoded0 ≫= sub) then
                   nextWithExistingSession decoded0
                 else nextWithNewSession validSub)
        end
    end.

Definition doRouteAuthenticateForMutation : M unit :=
  s ← get_session;
  if mutation s then next None
  else
    match authenticateHeaderIfPresent env req options with
    | inl err => next (Some err)
    | inr None => next (Some (httpErrors 401 "credentials required"))
    | inr (Some decoded0) =>
        if negb (sub_eqb (session_sub s) (sub decoded0)) then
          next (Some (httpErrors 401 "credentials mismatch"))
        else
          _ ← put_session (set_mutation s);
          next None
    end.

End Association.

(** Resolves to the decoded [token.sub] (the promise is resolved, [inr], or
    rejected, [inl]). *)
Definition promiseAuthenticateForMutation (env : Env) (iss0 secret0 : string)
    (jwtSession : option Token) : Error + option string :=
  match TokenCodec.verify (now env) jwtSession secret0 iss0 with
  | inl err => inl err
  | inr decoded0 => inr (sub decoded0)
  end.

(** ** The server (server.js) *)

Module Server.

(** [process.env] *)
Record ProcessEnv := mkProcessEnv {
  env_PORT : option string;
  env_ROOT_URL : option string;
  env_SESSION_SECRET : option string
}.

Definition PORT (e : ProcessEnv) : string := js_or (env_PORT e) "3000".

Definition ROOT_URL (e : ProcessEnv) : string :=
  js_or (env_ROOT_URL e) ("http://localhost:" ++ PORT e).

Definition SESSION_SECRET (e : ProcessEnv) : string :=
  js_or (env_SESSION_SECRET e) "keyboard-cat".

(** The [refreshSub] option: look up the tracker; when it has no member,
    generate a tracker and create a member for it.  The member is
    attached to the request. *)
Definition refreshSub (req : Request) (prevSub : option string) (w : World)
    : (Error + option string) * World :=
  match Member.findByTracker prevSub (store w) with
  | Some member => (inr prevSub, mkWorld (store w) (Some member))
  | None =>
      let '(sub0, s1) := Member.generateTracker (store w) in
      let '(member, s2) := Member.insert sub0 None s1 in
      (inr (Some sub0), mkWorld s2 (Some member))
  end.

Definition associateOptions (e : ProcessEnv) : Options.t :=
  Options.mk (ROOT_URL e) (SESSION_SECRET e)
    (365 * 24 * 60 * 60 * 1000)
    (5 * 60 * 1000)
    (1 * 60 * 1000)
    refreshSub.

(** What the custom error handler does with what it is given. *)
Inductive Reply :=
| Respond (status : Z) (message : string)
| PassOn (err : option Error).

(** custom error for 401 and 403 and 404 *)
Definition errorHandler (err : option Error) : Reply :=
  match err with
  | None => PassOn err
  | Some e =>
      match err_status e with
      | Some s =>
          if negb (existsb (Z.eqb s) [401; 403; 404]) then PassOn err
          else Respond s (err_message e)
      | None => PassOn err
      end
  end.

End Server.

(** ** Running a middleware on a request *)

(** [req.session = req.session || {}], an empty response, no uuid drawn. *)
Definition initial (req_session : option Session) (w : World) : State :=
  mkState (default empty_session req_session) [] 0 w.

Definition associate (env : Env) (options : Options.t) (req : Request)
    (req_session : option Session) (w : World) : State :=
  snd (doRouteAssociateAndRefresh env options req (initial req_session w)).

Definition guard (env : Env) (options : Options.t) (req : Request)
    (req_session : option Session) (w : World) : State :=
  snd (doRouteAuthenticateForMutation env options req (initial req_session w)).

(** The values written to a cookie slot, in order. *)
Fixpoint writes (name : string) (l : list Event) : list Token :=
  match l with
  | [] => []
  | SetCookie n v _ :: r =>
      if String.eqb n name then v :: writes name r else writes name r
  | Next _ :: r => writes name r
  end.

(** The names of the cookie slots written, in order. *)
Fixpoint written (l : list Event) : list string :=
  match l with
  | [] => []
  | SetCookie n _ _ :: r => n :: written r
  | Next _ :: r => written r
  end.

(** The cookie writes on the response, in order. *)
Fixpoint cookieWrites (l : list Event) : list Event :=
  match l with
  | [] => []
  | SetCookie n v o :: r => SetCookie n v o :: cookieWrites r
  | Next _ :: r => cookieWrites r
  end.

(** The errors handed to the continuation, in order. *)
Fixpoint failures (l : list Event) : list Error :=
  match l with
  | [] => []
  | Next (Some e) :: r => e :: failures r
  | _ :: r => failures r
  end.

(** Concrete surroundings used in the examples. *)
Module Sample.

Definition env : Env := mkEnv 1000000 (fun n => if Nat.eqb n 0 then "u0" else "u1").

Definition penv : Server.ProcessEnv := Server.mkProcessEnv None None None.

Definition options : Options.t := Server.associateOptions penv.

Definition emptyStore : Member.Store :=
  Member.mkStore ∅ (fun n => if Nat.eqb n 0 then "aaaaa" else "bbbbb") 0.

Definition world : World := mkWorld emptyStore None.

Definition bare : Request := mkRequest None ∅ false.

(** Options whose registry confirms every subject it is given. *)
Definition confirming : Options.t :=
  Options.mk "http://localhost:3000" "keyboard-cat" 31536000000 300000 60000
    (fun _ prev w => (inr prev, w)).

(** A session credential with an extra permission, 200 s from expiry. *)
Definition headerClaims : Claims :=
  mkClaims "j" "http://localhost:3000" (Some "aaaaa")
    (ScopeMany ["session"; "moderate"]) 900 1200.

Definition headerRequest : Request :=
  mkRequest (Some [Opaque "Bearer"; Jwt "keyboard-cat" headerClaims]) ∅ false.

Definition refreshClaims : Claims :=
  mkClaims "r" "http://localhost:3000" (Some "aaaaa") (ScopeOne "refresh")
    900 31536900.

Definition sessionClaims : Claims :=
  mkClaims "s" "http://localhost:3000" (Some "aaaaa") (ScopeOne "session")
    900 1200.

Definition cookieRequest : Request :=
  mkRequest None
    (<[cookieNames_refresh := Jwt "keyboard-cat" refreshClaims]>
       (<[cookieNames_session := Jwt "keyboard-cat" sessionClaims]> ∅))
    false.

(** A session credential 30 s from expiry (the margin is 60 s), in the
    header, next to a refresh cookie that is not a token. *)
Definition staleClaims : Claims :=
  mkClaims "s" "http://localhost:3000" (Some "aaaaa") (ScopeOne "session")
    730 1030.

Definition staleRequest : Request :=
  mkRequest (Some [Opaque "Bearer"; Jwt "keyboard-cat" staleClaims])
    (<[cookieNames_refresh := Opaque "garbage"]> ∅) false.

(** The same credential next to a valid refresh cookie of another
    subject. *)
Definition otherClaims : Claims :=
  mkClaims "r" "http://localhost:3000" (Some "zzzzz") (ScopeOne "refresh")
    900 31536900.

Definition mismatchRequest : Request :=
  mkRequest (Some [Opaque "Bearer"; Jwt "keyboard-cat" staleClaims])
    (<[cookieNames_refresh := Jwt "keyboard-cat" otherClaims]> ∅) false.

(** A header that names the scheme and carries no token. *)
Definition garbageRequest : Request :=
  mkRequest (Some [Opaque "Bearer garbage"]) ∅ false.

(** A context established from cookies only. *)
Definition cookieSession : Session :=
  mkSession (Some "aaaaa") false false false (Some refreshClaims).

(** A session credential that expired 100 s ago, in the header. *)
Definition expiredClaims : Claims :=
  mkClaims "s" "http://localhost:3000" (Some "aaaaa") (ScopeOne "session")
    600 900.

Definition expiredRequest : Request :=
  mkRequest (Some [Opaque "Bearer"; Jwt "keyboard-cat" expiredClaims]) ∅ false.

(** A registry in which the tracker [aaaaa] has a member. *)
Definition knownWorld : World :=
  mkWorld (snd (Member.insert "aaaaa" (Some "bbbbb") emptyStore)) None.

End Sample.

(** ** Vocabulary of the statements *)

(** The token a mint produces: the [n]-th uuid as [jti], the issuer, the
    subject, the scope, and the expiry [ttl_ms] milliseconds (in whole
    seconds) after now. *)
Definition minted (env : Env) (o : Options.t) (sc : string) (ttl_ms : Z)
    (s : option string) (n : nat) : Token :=
  Jwt (Options.secret o)
      (mkClaims (uuid_source env n) (Options.iss o) s (ScopeOne sc)
         (now env / 1000) (now env / 1000 + ttl_ms / 1000)).

(** The state after one uuid was drawn and the events [l] happened. *)
Definition drew (st : State) (l : list Event) : State :=
  mkState (session st) (log st ++ l) (S (uuids st)) (world st).

(** The store after the creation of a member for a fresh tracker. *)
Definition created (s : Member.Store) : Member.t * Member.Store :=
  let t := Member.random s (Member.drawn s) in
  let h := Member.random s (S (Member.drawn s)) in
  let m := Member.constructor h t in
  (m, Member.mkStore (<[t := m]> (<[h := m]> (Member.trackerToMember s)))
        (Member.random s) (S (S (Member.drawn s)))).

(** Where an error handed to the continuation comes from: built by the
    session module itself, or received from the codec, from a thrown
    exception, or from the rejected promise of [refreshSub]. *)
Inductive Origin (o : Options.t) (req : Request) (w : World) : Error -> Prop :=
| BuiltHere (m : string) :
    In m ["credentials bad format"; "credentials bad scheme";
          "credentials mismatch"; "credentials required"] ->
    Origin o req w (httpErrors 401 m)
| FromVerify (k : VerificationError) : Origin o req w (JsonWebTokenError k)
| FromSign (m : string) : Origin o req w (SignError m)
| Thrown (m : string) : Origin o req w (TypeError m)
| FromRegistry (e : Error) (prev : option string) (w1 : World) :
    Options.refreshSub o req prev w = (inl e, w1) ->
    Origin o req w e.

(** ** Further vocabulary *)

(** The invocations of the continuation, in order. *)
Fixpoint nexts (l : list Event) : list (option Error) :=
  match l with
  | [] => []
  | Next e :: r => e :: nexts r
  | SetCookie _ _ _ :: r => nexts r
  end.

(** The credential the association presents to the registry: the header's
    if there is one, the refresh cookie's otherwise. *)
Definition presented (env : Env) (o : Options.t) (req : Request)
    : Error + option Claims :=
  match authenticateHeaderIfPresent env req o with
  | inl err => inl err
  | inr (Some d) => inr (Some d)
  | inr None => authenticateCookie env req cookieNames_refresh o
  end.

(** ** Members as objects (models/member.model.js) *)

(** The registry with its members as objects: [trackerToMember] maps a key
    to a reference, and all the keys that refer to one object see the
    changes made to it.  [Member] above keeps the members by value, which
    is the same as long as no object is changed after its creation. *)
Module Objects.

Record Heap := mkHeap {
  members : gmap nat Member.t;
  fresh : nat;
  trackerToMember : gmap string nat;
  random : nat -> string;
  drawn : nat
}.

Definition deref (r : nat) (h : Heap) : option Member.t := members h !! r.

Definition generateTracker (h : Heap) : string * Heap :=
  (random h (drawn h),
   mkHeap (members h) (fresh h) (trackerToMember h) (random h) (S (drawn h))).

(** [new Member(handle, tracker)] *)
Definition constructor (handle0 tracker : string) (h : Heap) : nat * Heap :=
  (fresh h,
   mkHeap (<[fresh h := Member.constructor handle0 tracker]> (members h))
     (S (fresh h)) (trackerToMember h) (random h) (drawn h)).

(** [this.trackers.push(tracker); trackerToMember.set(tracker, this)] *)
Definition claimTracker (this : nat) (tracker : string) (h : Heap) : Heap :=
  mkHeap
    (alter (fun m => Member.mk (Member.handle m)
                       (Member.trackers m ++ [tracker])) this (members h))
    (fresh h)
    (<[tracker := this]> (trackerToMember h))
    (random h) (drawn h).

Definition insert (tracker : string) (handle0 : option string) (h : Heap)
    : nat * Heap :=
  let '(hd, h1) :=
    match handle0 with
    | Some x => if truthy x then (x, h) else generateTracker h
    | None => generateTracker h
    end in
  let '(member, h2) := constructor hd tracker h1 in
  let m1 := <[hd := member]> (trackerToMember h2) in
  let m2 := <[tracker := member]> m1 in
  (member, mkHeap (members h2) (fresh h2) m2 (random h2) (drawn h2)).

Definition getByHandle (handle0 : string) (h : Heap) : option nat :=
  trackerToMember h !! handle0.

Definition findByTracker (tracker : option string) (h : Heap) : option nat :=
  match tracker with
  | Some k => trackerToMember h !! k
  | None => None
  end.

Definition blackListTracker (tracker : string) (h : Heap) : Heap :=
  mkHeap (members h) (fresh h) (delete tracker (trackerToMember h))
    (random h) (drawn h).

(** The registry as the by-value model sees it: every key with the
    object it refers to. *)
Definition view (h : Heap) : Member.Store :=
  Member.mkStore (omap (fun r => members h !! r) (trackerToMember h))
    (random h) (drawn h).

(** References are handed out in order: what the map refers to has been
    allocated. *)
Definition allocated (h : Heap) : Prop :=
  forall k r, trackerToMember h !! k = Some r -> (r < fresh h)%nat.

End Objects.

(** ** Topics and articles (models/topic.model.js, models/article.model.js) *)

Module Topic.

(** The [icon] of a topic is never given. *)
Record t := mk {
  id : string;
  title : string;
  description : string
}.

Definition topics : list t :=
  [ mk "learning" "new renaissance"
      "science, philosophy, and life long learning";
    mk "politics" "politics" "discuss policy and public figures";
    mk "website" "this website"
      "suggestions and improvements and technical support for this website";
    mk "flame" "creative criticism"
      "constructively call out how other people might improve" ].

Definition getById (i : option string) : option t :=
  List.find (fun topic => sub_eqb i (Some (id topic))) topics.

Definition find : list t := topics.

End Topic.

Module Article.

(** [text] is [data.text]; [author] is a member object (a reference) or
    [undefined]. *)
Record t := mk {
  topic : Topic.t;
  text : option string;
  author : option nat
}.

(** The [articles] array, and what was published as [articleAdded]. *)
Record Store := mkStore {
  articles : list t;
  published : list t
}.

(** [author === other] on [undefined | object]. *)
Definition author_eqb (a b : option nat) : bool :=
  match a, b with
  | Some x, Some y => Nat.eqb x y
  | None, None => true
  | _, _ => false
  end.

(** The article is pushed first; reading [author.handle] for the log line
    throws when there is no author; then the article is published and the
    promise resolved. *)
Definition insert (topic0 : Topic.t) (text0 : option string)
    (author0 : option nat) (s : Store) : (Error + t) * Store :=
  let result := mk topic0 text0 author0 in
  let s1 := mkStore (articles s ++ [result]) (published s) in
  match author0 with
  | None => (inl (TypeError "Cannot read property 'handle' of undefined"), s1)
  | Some _ => (inr result, mkStore (articles s1) (published s1 ++ [result]))
  end.

Definition findByAuthor (author0 : option nat) (topicId : option string)
    (s : Store) : list t :=
  List.filter
    (fun article =>
       (negb (is_Some_bool author0) || author_eqb (author article) author0)
       && (negb (truthy_opt topicId)
           || sub_eqb (Some (Topic.id (topic article))) topicId))
    (articles s).

End Article.

(** ** The controllers (api/articles.controller.js, api/members.controller.js) *)

Module Api.

(** What a controller does with a request: answer with JSON, hand an error
    to the continuation, or throw. *)
Inductive Reply (B : Type) :=
| Json (status : Z) (body : B)
| Forward (err : Error)
| Throws (err : Error).

Arguments Json {B} status body.
Arguments Forward {B} err.
Arguments Throws {B} err.

(** What [create] reads of the request: [req.topicId], [req.data] with its
    [text], and [req.member]. *)
Record ArticleRequest := mkArticleRequest {
  topicId : option string;
  data : option (option string);
  member : option nat
}.

Definition articles_index (s : Article.Store) : Reply (list Article.t) :=
  Json 200 (Article.findByAuthor None None s).

Definition articles_create (req : ArticleRequest) (s : Article.Store)
    : Reply Article.t * Article.Store :=
  match Topic.getById (topicId req) with
  | None => (Forward (httpErrors 400 "Bad Request"), s)
  | Some topic =>
      match data req with
      | None =>
          (Throws (TypeError "Cannot read property 'text' of undefined"), s)
      | Some text =>
          if truthy_opt text then
            match Article.insert topic text (member req) s with
            | (inr result, s1) => (Json 201 result, s1)
            | (inl e, s1) => (Throws e, s1)
            end
          else (Forward (httpErrors 400 "Bad Request"), s)
      end
  end.

Definition members_view (id : string) (w : World) : Reply (option Member.t) :=
  if String.eqb id "@me" then Json 200 (req_member w)
  else
    match Member.getByHandle id (store w) with
    | None => Forward (httpErrors 404 "Not Found")
    | Some result => Json 200 (Some result)
    end.

End Api.

(** ** Log identifiers (logs.js) *)

Module Logs.

(** The options of [identifyObject]: each getter may be missing, and
    yields [undefined] or a string. *)
Record IdOptions (A : Type) := mkIdOptions {
  getTrustLevel : option (A -> option string);
  getSessionId : option (A -> option string)
}.

Arguments mkIdOptions {A} _ _.
Arguments getTrustLevel {A} _.
Arguments getSessionId {A} _.

(** The source of [generateId]: the strings it derives from [Math.random]. *)
Record Ids := mkIds {
  random : nat -> string;
  drawn : nat
}.

Definition generateId (g : Ids) : string * Ids :=
  (random g (drawn g), mkIds (random g) (S (drawn g))).

(** [getter && getter(obj)] *)
Definition call {A} (getter : option (A -> option string)) (obj : A)
    : option string :=
  match getter with
  | Some f => f obj
  | None => None
  end.

(** Attach a log ID to an object as ['T RRRRR SSSSS']: the new [obj.logId]. *)
Definition identifyObject {A} (obj : A) (logId : option string)
    (options : IdOptions A) (g : Ids) : string * Ids :=
  let fields := split_space (js_or logId "") in
  let trustLevel := fields !! 0%nat in
  let reqId := fields !! 1%nat in
  let sessionId := fields !! 2%nat in
  let t := js_or (call (getTrustLevel options) obj) (js_or trustLevel "U") in
  let '(r, g1) :=
    match reqId with
    | Some x => if truthy x then (x, g) else generateId g
    | None => generateId g
    end in
  let s := js_or (call (getSessionId options) obj) (js_or sessionId "-") in
  (String.concat " " [t; r; s], g1).

(** The three identifications of a request on the server: untrusted,
    authenticating, then trusted with the session's subject. *)
Definition server_untrusted : IdOptions Session := mkIdOptions None None.

Definition server_authenticating : IdOptions Session :=
  mkIdOptions (Some (fun _ => Some "A")) None.

Definition server_trusted : IdOptions Session :=
  mkIdOptions (Some (fun _ => Some "T")) (Some session_sub).

(** No space occurs in the string. *)
Fixpoint no_space (s : string) : bool :=
  match s with
  | EmptyString => true
  | String c r => negb (Ascii.eqb c " "%char) && no_space r
  end.

End Logs.


(** * Properties *)

(** ** Basic facts *)

Lemma sub_eqb_eq (a b : option string) : sub_eqb a b = true <-> a = b.
Proof.
  destruct a as [x|], b as [y|]; simpl; try (split; congruence).
  rewrite String.eqb_eq. split; congruence.
Qed.

Lemma sub_eqb_refl (a : option string) : sub_eqb a a = true.
Proof. now apply sub_eqb_eq. Qed.

Lemma sub_eqb_neq (a b : option string) : sub_eqb a b = false <-> a <> b.
Proof.
  rewrite <- sub_eqb_eq. destruct (sub_eqb a b); split; congruence.
Qed.

Lemma truthy_js_or (a : option string) (b : string) :
  truthy b = true -> truthy (js_or a b) = true.
Proof.
  intros Hb. destruct a as [s|]; simpl; [|exact Hb].
  destruct (truthy s) eqn:Hs; [exact Hs | exact Hb].
Qed.

Lemma SESSION_SECRET_truthy (pe : Server.ProcessEnv) :
  truthy (Server.SESSION_SECRET pe) = true.
Proof. now apply truthy_js_or. Qed.

(** A number passed where the options object is expected has no
    [sessionEarlyRefresh]: the sum is [NaN] and the comparison false. *)
Lemma almostExpired_BareNumber (env : Env) (d : Claims) (n : Z) :
  almostExpired env d (BareNumber n) = false.
Proof. reflexivity. Qed.

(** With the options object, [almostExpired] is the test of the
    specification: now plus the margin, in whole seconds, has reached
    [exp]. *)
Lemma almostExpired_WholeOptions (env : Env) (d : Claims) (o : Options.t) :
  almostExpired env d (WholeOptions o) = true
  <-> exp d <= (now env + Options.sessionEarlyRefresh o) / 1000.
Proof. unfold almostExpired; simpl. apply Z.leb_le. Qed.

(** *** The codec *)

Lemma verify_error (t : Z) (jwt : option Token) (secret0 issuer : string) (e : Error) :
  TokenCodec.verify t jwt secret0 issuer = inl e ->
  exists k, e = JsonWebTokenError k.
Proof.
  unfold TokenCodec.verify.
  destruct jwt as [[key p|txt]|]; [|intros [= <-]; eauto ..].
  repeat case_match; intros [= <-]; eauto.
Qed.

Lemma verify_ok (t : Z) (jwt : option Token) (secret0 issuer : string) (c : Claims) :
  TokenCodec.verify t jwt secret0 issuer = inr c <->
  jwt = Some (Jwt secret0 c) /\ t / 1000 < exp c /\ iss c = issuer.
Proof.
  unfold TokenCodec.verify. split.
  - destruct jwt as [[key p|txt]|]; try discriminate.
    destruct (String.eqb key secret0) eqn:Hk; simpl; [|discriminate].
    destruct (exp p <=? t / 1000) eqn:He; [discriminate|].
    destruct (String.eqb (iss p) issuer) eqn:Hi; simpl; [|discriminate].
    intros [= <-]. apply String.eqb_eq in Hk, Hi. apply Z.leb_gt in He.
    subst; auto.
  - intros (-> & Ht & <-).
    rewrite !String.eqb_refl; simpl.
    apply Z.leb_gt in Ht. now rewrite Ht.
Qed.

Lemma sign_ok (t : Z) (j i : string) (s : option string) (sc : Scope)
    (secret0 : string) (ttl : Z) (jwt : Token) :
  TokenCodec.sign t j i s sc secret0 ttl = inr jwt <->
  truthy secret0 = true /\
  jwt = Jwt secret0 (mkClaims j i s sc (t / 1000) (t / 1000 + ttl)).
Proof.
  unfold TokenCodec.sign. destruct (truthy secret0); split.
  - intros [= <-]; auto.
  - intros [_ ->]; auto.
  - discriminate.
  - intros [? _]; discriminate.
Qed.

(** *** Reading credentials *)

Lemma authenticateHeaderIfPresent_absent (env : Env) (req : Request) (o : Options.t) :
  authorization req = None ->
  authenticateHeaderIfPresent env req o = inr None.
Proof. unfold authenticateHeaderIfPresent. now intros ->. Qed.

(** The errors of the header reader: the two 401 it builds, or the
    codec's. *)
Lemma authenticateHeaderIfPresent_error (env : Env) (req : Request)
    (o : Options.t) (e : Error) :
  authenticateHeaderIfPresent env req o = inl e ->
  e = httpErrors 401 "credentials bad format"
  \/ e = httpErrors 401 "credentials bad scheme"
  \/ exists k, e = JsonWebTokenError k.
Proof.
  unfold authenticateHeaderIfPresent.
  destruct (authorization req) as [h|]; [|discriminate].
  destruct (negb (header_truthy h)); [discriminate|].
  destruct (negb _); [intros [= <-]; auto|].
  destruct (negb _); [intros [= <-]; auto|].
  destruct (TokenCodec.verify _ _ _ _) eqn:Hv; [|discriminate].
  intros [= <-]. right; right. eapply verify_error; eauto.
Qed.

(** [Authorization: Bearer <token>] with a token of this issuer, signed
    with the secret and not expired, is a valid header credential. *)
Lemma authenticateHeaderIfPresent_Bearer (env : Env) (req : Request)
    (o : Options.t) (c : Claims) :
  authorization req = Some [Opaque "Bearer"; Jwt (Options.secret o) c] ->
  now env / 1000 < exp c ->
  iss c = Options.iss o ->
  authenticateHeaderIfPresent env req o = inr (Some c).
Proof.
  intros Hh Ht Hi. unfold authenticateHeaderIfPresent. rewrite Hh.
  cbn -[TokenCodec.verify].
  assert (Hv : TokenCodec.verify (now env) (Some (Jwt (Options.secret o) c))
                 (Options.secret o) (Options.iss o) = inr c)
    by (apply verify_ok; auto).
  now rewrite Hv.
Qed.

Lemma authenticateCookie_absent (env : Env) (req : Request) (name : string)
    (o : Options.t) :
  cookies req !! name = None ->
  authenticateCookie env req name o = inr None.
Proof. unfold authenticateCookie. now intros ->. Qed.

Lemma authenticateCookie_error (env : Env) (req : Request) (name : string)
    (o : Options.t) (e : Error) :
  authenticateCookie env req name o = inl e ->
  exists k, e = JsonWebTokenError k.
Proof.
  unfold authenticateCookie.
  destruct (cookies req !! name) as [jwt|]; [|discriminate].
  destruct (negb (token_truthy jwt)); [discriminate|].
  destruct (TokenCodec.verify _ _ _ _) eqn:Hv; [|discriminate].
  intros [= <-]. eapply verify_error; eauto.
Qed.

(** A cookie that yields a credential or an error is present. *)
Lemma authenticateCookie_present (env : Env) (req : Request) (name : string)
    (o : Options.t) :
  authenticateCookie env req name o <> inr None ->
  cookie_truthy req name = true.
Proof.
  unfold authenticateCookie, cookie_truthy.
  destruct (cookies req !! name) as [jwt|]; [|congruence].
  destruct (token_truthy jwt); simpl; congruence.
Qed.

Lemma cookie_truthy_absent (req : Request) (name : string) :
  cookies req !! name = None -> cookie_truthy req name = false.
Proof. unfold cookie_truthy. now intros ->. Qed.

Lemma authenticateCookie_ok (env : Env) (req : Request) (name : string)
    (o : Options.t) (c : Claims) :
  authenticateCookie env req name o = inr (Some c) <->
  cookies req !! name = Some (Jwt (Options.secret o) c)
  /\ now env / 1000 < exp c /\ iss c = Options.iss o.
Proof.
  unfold authenticateCookie. split.
  - destruct (cookies req !! name) as [jwt|]; [|discriminate].
    destruct (negb (token_truthy jwt)); [discriminate|].
    destruct (TokenCodec.verify _ _ _ _) eqn:Hv; [discriminate|].
    intros [= <-]. apply verify_ok in Hv as ([= ->] & ? & ?). auto.
  - intros (-> & Ht & Hi). cbn -[TokenCodec.verify].
    assert (Hv : TokenCodec.verify (now env) (Some (Jwt (Options.secret o) c))
                   (Options.secret o) (Options.iss o) = inr c)
      by (apply verify_ok; auto).
    now rewrite Hv.
Qed.

(** ** The header reader on sample headers *)

Example split_space_double : split_space "Bearer  x" = ["Bearer"; ""; "x"].
Proof. reflexivity. Qed.

Example header_lower_case_scheme :
  authenticateHeaderIfPresent Sample.env
    (mkRequest (Some [Opaque "bearer"; Jwt "keyboard-cat" Sample.headerClaims])
       ∅ false) Sample.options
  = inr (Some Sample.headerClaims).
Proof. reflexivity. Qed.

Example header_basic_scheme :
  authenticateHeaderIfPresent Sample.env
    (mkRequest (Some [Opaque "Basic dXNlcjpwYXNz"]) ∅ false) Sample.options
  = inl (httpErrors 401 "credentials bad scheme").
Proof. reflexivity. Qed.

Example header_three_fields :
  authenticateHeaderIfPresent Sample.env
    (mkRequest (Some [Opaque "Bearer"; Jwt "keyboard-cat" Sample.headerClaims;
                      Opaque "x"]) ∅ false) Sample.options
  = inl (httpErrors 401 "credentials bad format").
Proof. reflexivity. Qed.

Example header_empty :
  authenticateHeaderIfPresent Sample.env
    (mkRequest (Some [Opaque ""]) ∅ false) Sample.options
  = inr None.
Proof. reflexivity. Qed.

Example header_scheme_only :
  authenticateHeaderIfPresent Sample.env
    (mkRequest (Some [Opaque "Bearer"]) ∅ false) Sample.options
  = inl (JsonWebTokenError Malformed).
Proof. reflexivity. Qed.

Example header_foreign_key :
  authenticateHeaderIfPresent Sample.env
    (mkRequest (Some [Opaque "Bearer"; Jwt "guess" Sample.headerClaims])
       ∅ false) Sample.options
  = inl (JsonWebTokenError BadSignature).
Proof. reflexivity. Qed.


(** *** Minting cookies *)



Lemma newRefreshCookie_run (env : Env) (req : Request) (s : option string)
    (o : Options.t) (st : State) :
  newRefreshCookie env req s o st =
  if truthy (Options.secret o) then
    let jwt := minted env o "refresh" (Options.refreshMaxAge o) s (uuids st) in
    (inr jwt,
     drew st [SetCookie cookieNames_refresh jwt
                (mkCookieOptions true (secure req) (Some (Options.refreshMaxAge o)))])
  else
    (inl (SignError "secretOrPrivateKey must have a value"),
     mkState (session st) (log st) (S (uuids st)) (world st)).
Proof.
  unfold newRefreshCookie, TokenCodec.sign, uuidV4, res_cookie, emit, mbind,
    M_bind, mret, M_ret, minted, drew; simpl.
  now destruct (truthy (Options.secret o)).
Qed.

Lemma newSessionCookie_run (env : Env) (req : Request) (s : option string)
    (o : Options.t) (st : State) :
  newSessionCookie env req s o st =
  if truthy (Options.secret o) then
    let jwt := minted env o "session" (Options.sessionMaxAge o) s (uuids st) in
    (inr jwt,
     drew st [SetCookie cookieNames_session jwt
                (mkCookieOptions false (secure req) None)])
  else
    (inl (SignError "secretOrPrivateKey must have a value"),
     mkState (session st) (log st) (S (uuids st)) (world st)).
Proof.
  unfold newSessionCookie, TokenCodec.sign, uuidV4, res_cookie, emit, mbind,
    M_bind, mret, M_ret, minted, drew; simpl.
  now destruct (truthy (Options.secret o)).
Qed.

Lemma newRefreshAndSessionCookie_run (env : Env) (req : Request)
    (s : option string) (o : Options.t) (st : State) :
  newRefreshAndSessionCookie env req s o st =
  if truthy (Options.secret o) then
    let rj := minted env o "refresh" (Options.refreshMaxAge o) s (uuids st) in
    let sj := minted env o "session" (Options.sessionMaxAge o) s (S (uuids st)) in
    (inr sj,
     mkState (session st)
       (log st ++ [SetCookie cookieNames_refresh rj
                     (mkCookieOptions true (secure req)
                        (Some (Options.refreshMaxAge o)));
                   SetCookie cookieNames_session sj
                     (mkCookieOptions false (secure req) None)])
       (S (S (uuids st))) (world st))
  else
    (inl (SignError "secretOrPrivateKey must have a value"),
     mkState (session st) (log st) (S (uuids st)) (world st)).
Proof.
  unfold newRefreshAndSessionCookie, mbind, M_bind.
  rewrite newRefreshCookie_run.
  destruct (truthy (Options.secret o)) eqn:Hs; simpl; [|reflexivity].
  rewrite newSessionCookie_run, Hs. unfold drew; simpl.
  now rewrite <- app_assoc.
Qed.

(** *** The registry behind [refreshSub] *)

Lemma insert_generated (t : string) (s : Member.Store) :
  Member.insert t None s =
  let h := Member.random s (Member.drawn s) in
  let m := Member.constructor h t in
  (m, Member.mkStore (<[t := m]> (<[h := m]> (Member.trackerToMember s)))
        (Member.random s) (S (Member.drawn s))).
Proof. reflexivity. Qed.


Lemma refreshSub_found (req : Request) (prev : option string) (w : World)
    (m : Member.t) :
  Member.findByTracker prev (store w) = Some m ->
  Server.refreshSub req prev w = (inr prev, mkWorld (store w) (Some m)).
Proof. unfold Server.refreshSub. now intros ->. Qed.

Lemma refreshSub_unseen (req : Request) (prev : option string) (w : World) :
  Member.findByTracker prev (store w) = None ->
  Server.refreshSub req prev w =
  (inr (Some (Member.random (store w) (Member.drawn (store w)))),
   mkWorld (snd (created (store w))) (Some (fst (created (store w))))).
Proof. unfold Server.refreshSub. now intros ->. Qed.

(** The registry never rejects, changes the store only by one creation,
    and resolves a subject with a member unchanged. *)
Lemma refreshSub_cases (req : Request) (prev : option string) (w : World) :
  (exists m, Member.findByTracker prev (store w) = Some m
             /\ Server.refreshSub req prev w = (inr prev, mkWorld (store w) (Some m)))
  \/ (Member.findByTracker prev (store w) = None
      /\ Server.refreshSub req prev w =
         (inr (Some (Member.random (store w) (Member.drawn (store w)))),
          mkWorld (snd (created (store w))) (Some (fst (created (store w)))))).
Proof.
  destruct (Member.findByTracker prev (store w)) as [m|] eqn:Hf.
  - left. exists m. split; [reflexivity|]. now apply refreshSub_found.
  - right. split; [reflexivity|]. now apply refreshSub_unseen.
Qed.

(** The created member is the one found under the new tracker. *)
Lemma created_found (s : Member.Store) :
  Member.findByTracker (Some (Member.random s (Member.drawn s))) (snd (created s))
  = Some (fst (created s)).
Proof. unfold created, Member.findByTracker; simpl. apply lookup_insert_eq. Qed.

(** The callback of a fresh mint never throws: a token that was just
    signed decodes. *)
Lemma nextWithNewSession_no_throw (env : Env) (o : Options.t) (req : Request)
    (v : option string) (st : State) :
  fst (nextWithNewSession env o req v st) = None.
Proof.
  unfold nextWithNewSession, mbind, M_bind.
  rewrite newRefreshAndSessionCookie_run.
  now destruct (truthy (Options.secret o)).
Qed.

(** ** Unfolding and case analysis of a middleware run *)

Ltac unfold_run :=
  unfold associate, guard, doRouteAssociateAndRefresh,
    doRouteAuthenticateForMutation, revocationCheck, nextWithExistingSession,
    nextWithNewSession, refreshReverified, sessionVerified,
    promoteDecodedToSession, with_world, get_session, put_session, next,
    emit, mbind, M_bind, mret, M_ret, initial.

Ltac red_run :=
  cbn -[authenticateHeaderIfPresent authenticateCookie truthy cookie_truthy
        sub_eqb scope_is_refresh newRefreshAndSessionCookie newSessionCookie
        Server.refreshSub minted includes].

Ltac mint_run :=
  repeat first [ rewrite newRefreshAndSessionCookie_run
               | rewrite newSessionCookie_run ];
  unfold drew.

(** One branching point of a run, in the order the code meets them. *)
Ltac split_step :=
  match goal with
  | |- context [Options.refreshSub ?o ?r ?p ?w] =>
      destruct (Options.refreshSub o r p w) as [[?|?] ?] eqn:?
  | |- context [Server.refreshSub ?r ?p ?w] =>
      destruct (Server.refreshSub r p w) as [[?|?] ?] eqn:?
  | |- context [authenticateHeaderIfPresent ?e ?r ?o] =>
      destruct (authenticateHeaderIfPresent e r o) as [?|[?|]] eqn:?
  | |- context [authenticateCookie ?e ?r ?n ?o] =>
      destruct (authenticateCookie e r n o) as [?|[?|]] eqn:?
  | |- context [if ?b then _ else _] => destruct b eqn:?
  end; mint_run; red_run.

Ltac all_runs := unfold_run; mint_run; red_run; repeat split_step.

(** ** C9: credentials round-trip through the codec *)

(** C9.  A claims set signed with a secret and an issuer verifies, with
    the same secret and issuer at any time before its expiry, to the
    claims it was signed with: [jti], [iss], [sub] and [scope] are
    unchanged. *)
Theorem verify_sign_roundtrip (t0 t1 : Z) (j i : string) (s : option string)
    (sc : Scope) (secret0 : string) (ttl : Z) (jwt : Token) :
  TokenCodec.sign t0 j i s sc secret0 ttl = inr jwt ->
  t1 / 1000 < t0 / 1000 + ttl ->
  exists c,
    TokenCodec.verify t1 (Some jwt) secret0 i = inr c
    /\ TokenCodec.decode jwt = Some c
    /\ jti c = j /\ iss c = i /\ sub c = s /\ scope c = sc.
Proof.
  intros Hs Ht. apply sign_ok in Hs as [_ ->].
  eexists. split; [apply verify_ok; simpl; auto|]. simpl. auto 6.
Qed.

Lemma verify_sign_roundtrip_witness :
  1200000 / 1000 < 1000000 / 1000 + 300 /\
  exists c,
    TokenCodec.verify 1200000
      (Some (Jwt "keyboard-cat"
               (mkClaims "u0" "http://localhost:3000" (Some "aaaaa")
                  (ScopeOne "session") 1000 1300)))
      "keyboard-cat" "http://localhost:3000" = inr c
    /\ TokenCodec.decode
         (Jwt "keyboard-cat"
            (mkClaims "u0" "http://localhost:3000" (Some "aaaaa")
               (ScopeOne "session") 1000 1300)) = Some c
    /\ jti c = "u0" /\ iss c = "http://localhost:3000"
    /\ sub c = Some "aaaaa" /\ scope c = ScopeOne "session".
Proof.
  split; [reflexivity|].
  apply (verify_sign_roundtrip 1000000 1200000 "u0" "http://localhost:3000"
           (Some "aaaaa") (ScopeOne "session") "keyboard-cat" 300);
    reflexivity.
Defined.

(** The session cookie minted for a subject authenticates that subject on
    the standalone entry point until it expires. *)
Lemma minted_session_authenticates (env env1 : Env) (req : Request)
    (s : option string) (o : Options.t) (st st1 : State) (jwt : Token) :
  newSessionCookie env req s o st = (inr jwt, st1) ->
  now env1 / 1000 < now env / 1000 + Options.sessionMaxAge o / 1000 ->
  promiseAuthenticateForMutation env1 (Options.iss o) (Options.secret o)
    (Some jwt) = inr s.
Proof.
  rewrite newSessionCookie_run.
  destruct (truthy (Options.secret o)); [|discriminate].
  intros [= <- _] Ht. unfold promiseAuthenticateForMutation, minted.
  match goal with
  | |- context [TokenCodec.verify ?t (Some (Jwt ?k ?c)) ?k ?i] =>
      assert (Hv : TokenCodec.verify t (Some (Jwt k c)) k i = inr c)
        by (apply verify_ok; simpl; auto)
  end.
  now rewrite Hv.
Qed.

(** ** C3: a valid header credential *)

(** C3.  A request whose [Authorization: Bearer] credential is valid and
    whose subject the revocation check returns unchanged ends with a
    session context that has [mutation = true], the credential's [sub],
    and exactly the [sensitive] / [moderate] flags found in its scope;
    without a refresh cookie nothing is written to the response. *)
Theorem header_credential_context (env : Env) (o : Options.t) (req : Request)
    (w w1 : World) (d : Claims) :
  authenticateHeaderIfPresent env req o = inr (Some d) ->
  Options.refreshSub o req (sub d) w = (inr (sub d), w1) ->
  let st := associate env o req None w in
  mutation (session st) = true
  /\ session_sub (session st) = sub d
  /\ sensitive (session st) = includes (scopeArray (scope d)) "sensitive"
  /\ moderate (session st) = includes (scopeArray (scope d)) "moderate"
  /\ decoded (session st) = Some d
  /\ (cookies req !! cookieNames_refresh = None ->
      written (log st) = [] /\ log st = [Next None]).
Proof.
  intros Hh Hr st; subst st. unfold_run; red_run.
  rewrite Hh; red_run. rewrite Hr; red_run. rewrite sub_eqb_refl; red_run.
  assert (Hflag : forall b : bool, (if b then true else false) = b)
    by (now intros []).
  destruct (cookie_truthy req cookieNames_refresh) eqn:Hc; red_run.
  - assert (Hn : cookies req !! cookieNames_refresh = None ->
                 cookie_truthy req cookieNames_refresh = false)
      by apply cookie_truthy_absent.
    repeat split_step; rewrite ?Hflag;
      repeat match goal with |- _ /\ _ => split end; try reflexivity;
      intros Habs; apply Hn in Habs; congruence.
  - rewrite !Hflag. repeat split; reflexivity.
Qed.

Lemma header_credential_context_witness :
  mutation (session (associate Sample.env Sample.confirming
                       Sample.headerRequest None Sample.world)) = true
  /\ session_sub (session (associate Sample.env Sample.confirming
                             Sample.headerRequest None Sample.world))
     = Some "aaaaa"
  /\ sensitive (session (associate Sample.env Sample.confirming
                           Sample.headerRequest None Sample.world)) = false
  /\ moderate (session (associate Sample.env Sample.confirming
                          Sample.headerRequest None Sample.world)) = true.
Proof.
  pose proof (header_credential_context Sample.env Sample.confirming
                Sample.headerRequest Sample.world Sample.world
                Sample.headerClaims eq_refl eq_refl) as H.
  cbv zeta in H. destruct H as (Hm & Hs & Hse & Hmo & _).
  exact (conj Hm (conj Hs (conj Hse Hmo))).
Defined.

(** ** C6: nothing to refresh *)

(** C6.  Without an [Authorization] header, a valid refresh cookie whose
    subject the revocation check returns unchanged, together with a valid
    session cookie for the same subject that is not almost expired, leaves
    both cookie slots of the response unwritten. *)
Theorem valid_pair_writes_nothing (env : Env) (o : Options.t) (req : Request)
    (w w1 : World) (rd sd : Claims) :
  authorization req = None ->
  authenticateCookie env req cookieNames_refresh o = inr (Some rd) ->
  Options.refreshSub o req (sub rd) w = (inr (sub rd), w1) ->
  authenticateCookie env req cookieNames_session o = inr (Some sd) ->
  sub sd = sub rd ->
  almostExpired env sd (WholeOptions o) = false ->
  let st := associate env o req None w in
  written (log st) = []
  /\ writes cookieNames_refresh (log st) = []
  /\ writes cookieNames_session (log st) = []
  /\ log st = [Next None]
  /\ session_sub (session st) = sub rd.
Proof.
  intros Hh Hr Hv Hs Hsub _ st; subst st.
  assert (Hc : cookie_truthy req cookieNames_refresh = true)
    by (eapply authenticateCookie_present; rewrite Hr; discriminate).
  unfold_run; red_run.
  rewrite (authenticateHeaderIfPresent_absent _ _ _ Hh); red_run.
  rewrite Hr; red_run. rewrite Hv; red_run. rewrite sub_eqb_refl; red_run.
  rewrite Hc; red_run.
  destruct (scope_is_refresh (scope rd)); red_run; [|now auto].
  rewrite Hs; red_run. rewrite Hsub, sub_eqb_refl; red_run. now auto.
Qed.

Lemma valid_pair_writes_nothing_witness :
  almostExpired Sample.env Sample.sessionClaims
    (WholeOptions Sample.confirming) = false
  /\ log (associate Sample.env Sample.confirming Sample.cookieRequest None
            Sample.world) = [Next None].
Proof.
  split; [reflexivity|].
  apply (valid_pair_writes_nothing Sample.env Sample.confirming
           Sample.cookieRequest Sample.world Sample.world
           Sample.refreshClaims Sample.sessionClaims); reflexivity.
Defined.

(** ** C10: an absent subject returned unchanged *)

(** C10.  Without an [Authorization] header and without a refresh cookie,
    the revocation check is given an absent subject.  If it resolves to
    the absent subject again, the association promotes an absent decoded
    credential: [promoteDecodedToSession] throws on reading it, the
    context stays empty and the exception is what the continuation gets.
    If it resolves to a subject, no such exception occurs: the step runs
    through only if [refreshSub] does not return an absent subject
    unchanged. *)
Theorem absent_subject_unchanged_throws (env : Env) (o : Options.t)
    (req : Request) (w w1 : World) (valid : option string) :
  authorization req = None ->
  cookies req !! cookieNames_refresh = None ->
  Options.refreshSub o req None w = (inr valid, w1) ->
  let st := associate env o req None w in
  ((exists m, In (TypeError m) (failures (log st))) <-> valid = None)
  /\ (valid = None ->
      exists e, promoteDecodedToSession None = inl e
                /\ log st = [Next (Some e)]
                /\ session st = empty_session).
Proof.
  intros Hh Hc Hr st; subst st. unfold_run; red_run.
  rewrite (authenticateHeaderIfPresent_absent _ _ _ Hh); red_run.
  rewrite (authenticateCookie_absent _ _ _ _ Hc); red_run.
  rewrite Hr; red_run.
  destruct valid as [v|]; red_run.
  - cbn [sub_eqb]. mint_run.
    destruct (truthy (Options.secret o)); unfold minted; red_run.
    + split; [|discriminate]. split; [|discriminate].
      intros [m []].
    + split; [|discriminate]. split; [|discriminate].
      intros [m [Hm|[]]]. discriminate.
  - split.
    + split; [reflexivity|]. intros _. eexists. left. reflexivity.
    + intros _. eexists. repeat split.
Qed.

Lemma absent_subject_unchanged_throws_witness :
  exists e, promoteDecodedToSession None = inl e
            /\ log (associate Sample.env Sample.confirming Sample.bare None
                      Sample.world) = [Next (Some e)]
            /\ session (associate Sample.env Sample.confirming Sample.bare None
                          Sample.world) = empty_session.
Proof.
  apply (absent_subject_unchanged_throws Sample.env Sample.confirming
           Sample.bare Sample.world Sample.world None); reflexivity.
Defined.

(** ** C4: a request without credentials *)

Lemma created_is_one_insert (s : Member.Store) :
  created s =
  Member.insert (fst (Member.generateTracker s)) None
    (snd (Member.generateTracker s)).
Proof. reflexivity. Qed.

Lemma minted_decode (env : Env) (o : Options.t) (sc : string) (ttl : Z)
    (s : option string) (n : nat) :
  exists c, TokenCodec.decode (minted env o sc ttl s n) = Some c
            /\ sub c = s /\ scope c = ScopeOne sc /\ iss c = Options.iss o.
Proof. eexists. split; [reflexivity|]. simpl. auto. Qed.

(** C4.  On the server, a request with no [Authorization] header and no
    cookies gets exactly one refresh cookie and exactly one session
    cookie, both for the tracker the registry has just generated, and the
    registry creates exactly one member for that tracker. *)
Theorem bare_request_mints_pair (env : Env) (pe : Server.ProcessEnv)
    (req : Request) (w : World) :
  authorization req = None ->
  cookies req = ∅ ->
  let st := associate env (Server.associateOptions pe) req None w in
  let tracker := fst (Member.generateTracker (store w)) in
  let registered := Member.insert tracker None (snd (Member.generateTracker (store w))) in
  (exists rjwt sjwt rc sc,
      writes cookieNames_refresh (log st) = [rjwt]
      /\ writes cookieNames_session (log st) = [sjwt]
      /\ written (log st) = [cookieNames_refresh; cookieNames_session]
      /\ TokenCodec.decode rjwt = Some rc /\ TokenCodec.decode sjwt = Some sc
      /\ sub rc = Some tracker /\ scope rc = ScopeOne "refresh"
      /\ sub sc = Some tracker /\ scope sc = ScopeOne "session")
  /\ failures (log st) = []
  /\ session_sub (session st) = Some tracker
  /\ store (world st) = snd registered
  /\ req_member (world st) = Some (fst registered)
  /\ Member.findByTracker (Some tracker) (store (world st)) = Some (fst registered).
Proof.
  intros Hh Hc st tracker registered; subst st tracker registered.
  assert (Hk : cookies req !! cookieNames_refresh = None)
    by (rewrite Hc; apply lookup_empty).
  rewrite <- created_is_one_insert.
  unfold_run; red_run.
  rewrite (authenticateHeaderIfPresent_absent _ _ _ Hh); red_run.
  rewrite (authenticateCookie_absent _ _ _ _ Hk); red_run.
  rewrite refreshSub_unseen by reflexivity; red_run.
  cbn [sub_eqb]. mint_run. red_run.
  rewrite SESSION_SECRET_truthy; red_run.
  split; [|repeat split; apply created_found].
  do 2 eexists.
  destruct (minted_decode env (Server.associateOptions pe) "refresh"
              (Options.refreshMaxAge (Server.associateOptions pe))
              (Some (Member.random (store w) (Member.drawn (store w)))) 0)
    as (rc & Hrc & ? & ? & _).
  destruct (minted_decode env (Server.associateOptions pe) "session"
              (Options.sessionMaxAge (Server.associateOptions pe))
              (Some (Member.random (store w) (Member.drawn (store w)))) 1)
    as (sc & Hsc & ? & ? & _).
  exists rc, sc. repeat split; try eassumption; reflexivity.
Qed.

Lemma bare_request_mints_pair_witness :
  written (log (associate Sample.env Sample.options Sample.bare None
                  Sample.world))
  = [cookieNames_refresh; cookieNames_session]
  /\ session_sub (session (associate Sample.env Sample.options Sample.bare None
                             Sample.world)) = Some "aaaaa"
  /\ Member.findByTracker (Some "aaaaa")
       (store (world (associate Sample.env Sample.options Sample.bare None
                        Sample.world)))
     = Some (Member.mk "bbbbb" ["aaaaa"]).
Proof.
  pose proof (bare_request_mints_pair Sample.env Sample.penv Sample.bare
                Sample.world eq_refl eq_refl) as H.
  cbv zeta in H.
  destruct H as ((rj & sj & rc & sc & _ & _ & Hw & _) & _ & Hs & _ & _ & Hf).
  exact (conj Hw (conj Hs Hf)).
Defined.

(** ** C8: refresh before session *)

(** The cookie slots written by an association, in order: nothing, the
    session slot alone, or the refresh slot and then the session slot. *)
Lemma associate_written (env : Env) (o : Options.t) (req : Request)
    (s0 : option Session) (w : World) :
  written (log (associate env o req s0 w)) = []
  \/ written (log (associate env o req s0 w)) = [cookieNames_session]
  \/ written (log (associate env o req s0 w))
     = [cookieNames_refresh; cookieNames_session].
Proof. all_runs; simpl; auto. Qed.

(** C8.  The helper that mints both cookies writes the refresh cookie and
    then the session cookie, for the same subject, or writes nothing; and
    whenever an association writes both slots, the refresh slot is written
    first and the session slot after it. *)
Theorem refresh_written_before_session :
  (forall (env : Env) (req : Request) (s : option string) (o : Options.t)
          (st : State),
      (exists rj sj ro so rc sc,
          newRefreshAndSessionCookie env req s o st
          = (inr sj,
             mkState (session st)
               (log st ++ [SetCookie cookieNames_refresh rj ro;
                           SetCookie cookieNames_session sj so])
               (S (S (uuids st))) (world st))
          /\ TokenCodec.decode rj = Some rc /\ sub rc = s
          /\ TokenCodec.decode sj = Some sc /\ sub sc = s)
      \/ (exists e,
             fst (newRefreshAndSessionCookie env req s o st) = inl e
             /\ log (snd (newRefreshAndSessionCookie env req s o st)) = log st))
  /\ (forall (env : Env) (o : Options.t) (req : Request) (s0 : option Session)
             (w : World),
         In cookieNames_refresh (written (log (associate env o req s0 w))) ->
         In cookieNames_session (written (log (associate env o req s0 w))) ->
         exists rj sj pre post,
           written (log (associate env o req s0 w))
           = [cookieNames_refresh; cookieNames_session]
           /\ writes cookieNames_refresh (log (associate env o req s0 w)) = [rj]
           /\ writes cookieNames_session (log (associate env o req s0 w)) = [sj]
           /\ cookieWrites (log (associate env o req s0 w))
              = [SetCookie cookieNames_refresh rj pre;
                 SetCookie cookieNames_session sj post]).
Proof.
  split.
  - intros env req s o st. rewrite newRefreshAndSessionCookie_run.
    destruct (truthy (Options.secret o)).
    + left.
      destruct (minted_decode env o "refresh" (Options.refreshMaxAge o) s
                  (uuids st)) as (rc & Hrc & Hs1 & _).
      destruct (minted_decode env o "session" (Options.sessionMaxAge o) s
                  (S (uuids st))) as (sc & Hsc & Hs2 & _).
      do 4 eexists. exists rc, sc. cbv zeta. repeat split; eassumption.
    + right. eexists. split; reflexivity.
  - intros env o req s0 w.
    all_runs; simpl; intros Hr Hs;
      try (exfalso; clear -Hr; intuition discriminate);
      try (exfalso; clear -Hs; intuition discriminate);
      do 4 eexists; repeat split; reflexivity.
Qed.

Lemma refresh_written_before_session_witness :
  exists rj sj pre post,
    written (log (associate Sample.env Sample.options Sample.bare None
                    Sample.world))
    = [cookieNames_refresh; cookieNames_session]
    /\ writes cookieNames_refresh
         (log (associate Sample.env Sample.options Sample.bare None
                 Sample.world)) = [rj]
    /\ writes cookieNames_session
         (log (associate Sample.env Sample.options Sample.bare None
                 Sample.world)) = [sj]
    /\ cookieWrites
         (log (associate Sample.env Sample.options Sample.bare None
                 Sample.world))
       = [SetCookie cookieNames_refresh rj pre;
          SetCookie cookieNames_session sj post].
Proof.
  apply (proj2 refresh_written_before_session Sample.env Sample.options
           Sample.bare None Sample.world).
  - left; reflexivity.
  - right; left; reflexivity.
Defined.

(** ** C7: at most one write per slot *)




(** ** C2: the status of the core's errors *)

Lemma Origin_header (env : Env) (o : Options.t) (req : Request) (w : World)
    (e : Error) :
  authenticateHeaderIfPresent env req o = inl e -> Origin o req w e.
Proof.
  intros H. apply authenticateHeaderIfPresent_error in H as [->|[->|[k ->]]].
  - apply BuiltHere. simpl; auto.
  - apply BuiltHere. simpl; auto.
  - apply FromVerify.
Qed.

Lemma Origin_cookie (env : Env) (o : Options.t) (req : Request) (w : World)
    (name : string) (e : Error) :
  authenticateCookie env req name o = inl e -> Origin o req w e.
Proof.
  intros H. apply authenticateCookie_error in H as [k ->]. apply FromVerify.
Qed.

(** An error with a status is a 401 of the module, or the registry's. *)
Lemma Origin_status (o : Options.t) (req : Request) (w : World) (e : Error)
    (s : Z) :
  Origin o req w e ->
  err_status e = Some s ->
  s = 401 \/ exists prev w1, Options.refreshSub o req prev w = (inl e, w1).
Proof.
  intros [m _|k|m|m|e' prev w1 Hr]; simpl; try discriminate.
  - intros [= <-]; auto.
  - intros _. right; eauto.
Qed.

(** The codec's errors are not answered by the 401/403/404 handler. *)
Lemma errorHandler_codec (k : VerificationError) :
  Server.errorHandler (Some (JsonWebTokenError k))
  = Server.PassOn (Some (JsonWebTokenError k)).
Proof. reflexivity. Qed.

Ltac origin :=
  first [ eapply Origin_header; eassumption
        | eapply Origin_cookie; eassumption
        | eapply FromRegistry; eassumption
        | apply FromSign
        | apply Thrown
        | apply BuiltHere; simpl; tauto ].

(** C2, as the code has it.  Every error that the association or the
    mutation guard hands to the continuation is a 401 built by the module
    (bad format, bad scheme, credentials mismatch, credentials required),
    or comes unchanged from the codec (verification or signing), from a
    thrown exception, or from the registry's rejected promise.  The module
    builds no 403 and no 404: an error with another status than 401 is the
    registry's.  The codec's errors carry no status and the 401/403/404
    handler passes them on. *)
Theorem core_errors_by_origin (env : Env) (o : Options.t) (req : Request)
    (s0 : option Session) (w : World) (e : Error) :
  In e (failures (log (associate env o req s0 w)))
  \/ In e (failures (log (guard env o req s0 w))) ->
  Origin o req w e
  /\ (forall s, err_status e = Some s ->
                s = 401
                \/ exists prev w1, Options.refreshSub o req prev w = (inl e, w1))
  /\ (forall k, e = JsonWebTokenError k ->
                err_status e = None
                /\ Server.errorHandler (Some e) = Server.PassOn (Some e)).
Proof.
  intros H.
  assert (Ho : Origin o req w e).
  { destruct H as [H|H]; revert H.
    - all_runs; simpl; intros H;
        repeat match goal with
               | H : _ \/ _ |- _ => destruct H as [<-|H]
               | H : False |- _ => destruct H
               end;
        origin.
    - all_runs; simpl; intros H;
        repeat match goal with
               | H : _ \/ _ |- _ => destruct H as [<-|H]
               | H : False |- _ => destruct H
               end;
        origin. }
  split; [exact Ho|]. split.
  - intros s. now apply Origin_status.
  - intros k ->. split; reflexivity.
Qed.

Lemma core_errors_by_origin_witness :
  Origin Sample.options Sample.expiredRequest Sample.world
    (JsonWebTokenError Expired).
Proof.
  apply (core_errors_by_origin Sample.env Sample.options Sample.expiredRequest
           None Sample.world (JsonWebTokenError Expired)).
  left. simpl. left. reflexivity.
Defined.

(** C2 as stated fails: an expired session credential in the header makes
    the association hand the codec's error to the continuation; it has no
    status, and the 401/403/404 handler does not answer it with 401. *)
Lemma expired_header_is_not_401 :
  exists e,
    In e (failures (log (associate Sample.env Sample.options
                           Sample.expiredRequest None Sample.world)))
    /\ err_status e <> Some 401
    /\ forall m, Server.errorHandler (Some e) <> Server.Respond 401 m.
Proof.
  exists (JsonWebTokenError Expired). split; [|split].
  - simpl. left. reflexivity.
  - discriminate.
  - intros m. discriminate.
Qed.

(** ** C5: the mutation guard *)

(** C5, as the code has it.  On a context whose [mutation] flag is not
    set and whose subject is established, and for requests whose header
    credential, if it verifies, is a session credential (its scope is not
    [refresh]): the guard continues without error and sets [mutation]
    exactly when the header carries a valid session credential whose [sub]
    is the context's established [sub].  Without a header credential it
    fails with 401 "credentials required"; with another [sub] it fails
    with 401 "credentials mismatch"; a header that cannot be read fails
    with the reader's error unchanged: 401 for a bad format or scheme, the
    codec's own error (which has no status) for a verification failure.
    The failing runs leave the context as it was. *)
Theorem guard_outcomes (env : Env) (o : Options.t) (req : Request)
    (s0 : option Session) (w : World) :
  mutation (default empty_session s0) = false ->
  let s := default empty_session s0 in
  let st := guard env o req s0 w in
  (forall d, truthy_opt (session_sub s) = true ->
             authenticateHeaderIfPresent env req o = inr (Some d) ->
             scope_is_refresh (scope d) = false ->
             sub d = session_sub s ->
             log st = [Next None] /\ session st = set_mutation s)
  /\ (truthy_opt (session_sub s) = true ->
      (forall d, authenticateHeaderIfPresent env req o = inr (Some d) ->
                 scope_is_refresh (scope d) = false) ->
      ((log st = [Next None] /\ mutation (session st) = true)
       <-> exists d, authenticateHeaderIfPresent env req o = inr (Some d)
                     /\ scope_is_refresh (scope d) = false
                     /\ sub d = session_sub s))
  /\ (authenticateHeaderIfPresent env req o = inr None ->
      log st = [Next (Some (httpErrors 401 "credentials required"))]
      /\ session st = s)
  /\ (forall d, authenticateHeaderIfPresent env req o = inr (Some d) ->
                sub d <> session_sub s ->
                log st = [Next (Some (httpErrors 401 "credentials mismatch"))]
                /\ session st = s)
  /\ (forall err, authenticateHeaderIfPresent env req o = inl err ->
                  log st = [Next (Some err)] /\ session st = s
                  /\ (err = httpErrors 401 "credentials bad format"
                      \/ err = httpErrors 401 "credentials bad scheme"
                      \/ exists k, err = JsonWebTokenError k)).
Proof.
  intros Hm s st; subst s st. unfold_run; red_run. rewrite Hm; red_run.
  destruct (authenticateHeaderIfPresent env req o) as [err|[d|]] eqn:Hh;
    red_run.
  - split; [|split; [|split; [|split]]]; try discriminate.
    + intros _ _. split; [intros [[=] _] | intros (d & [=] & _)].
    + intros err' [= <-]. repeat split.
      now apply authenticateHeaderIfPresent_error in Hh.
  - destruct (sub_eqb (session_sub (default empty_session s0)) (sub d)) eqn:He;
      red_run.
    + apply sub_eqb_eq in He.
      split; [|split; [|split; [|split]]]; try discriminate; auto.
      * intros _ Hsc. split; [intros _; exists d; auto | auto].
      * intros d' [= <-] Hne. congruence.
    + apply sub_eqb_neq in He.
      split; [|split; [|split; [|split]]]; try discriminate; auto.
      * intros d' _ [= <-] _ Hd. congruence.
      * intros _ _.
        split; [intros [[=] _] | intros (d' & [= <-] & _ & Hd); congruence].
  - split; [|split; [|split; [|split]]]; try discriminate; auto.
    intros _ _. split; [intros [[=] _] | intros (d & [=] & _)].
Qed.

Lemma guard_outcomes_witness :
  mutation Sample.cookieSession = false
  /\ log (guard Sample.env Sample.options Sample.bare
            (Some Sample.cookieSession) Sample.world)
     = [Next (Some (httpErrors 401 "credentials required"))]
  /\ session (guard Sample.env Sample.options Sample.bare
                (Some Sample.cookieSession) Sample.world)
     = Sample.cookieSession.
Proof.
  split; [reflexivity|].
  apply (guard_outcomes Sample.env Sample.options Sample.bare
           (Some Sample.cookieSession) Sample.world eq_refl).
  reflexivity.
Defined.

(** The guard does not look at the scope of the credential: a refresh
    token with the context's subject, presented in the header, passes it.
    The statement above says nothing about such requests. *)
Lemma guard_passes_refresh_scope :
  guard Sample.env Sample.options
    (mkRequest (Some [Opaque "Bearer"; Jwt "keyboard-cat" Sample.refreshClaims])
       ∅ false)
    (Some Sample.cookieSession) Sample.world
  = mkState (set_mutation Sample.cookieSession) [Next None] 0 Sample.world.
Proof. reflexivity. Qed.

(** C5 as stated fails: on a context established from cookies, with an
    expired session credential in the header, the guard hands the codec's
    error to the continuation, and that is not a 401. *)
Lemma guard_expired_header_is_not_401 :
  mutation Sample.cookieSession = false
  /\ exists e,
       log (guard Sample.env Sample.options Sample.expiredRequest
              (Some Sample.cookieSession) Sample.world) = [Next (Some e)]
       /\ err_status e <> Some 401
       /\ forall m, Server.errorHandler (Some e) <> Server.Respond 401 m.
Proof.
  split; [reflexivity|].
  exists (JsonWebTokenError Expired). split; [reflexivity|]. split.
  - discriminate.
  - intros m. discriminate.
Qed.

(** ** C1: an almost expired session credential and a bad refresh cookie *)

(** Since [almostExpired] is always false where the association calls it,
    the re-verification of the refresh cookie is never entered: unless the
    registry itself rejects with it, no run of the association reports
    "credentials mismatch". *)
Lemma associate_never_mismatch (env : Env) (o : Options.t) (req : Request)
    (s0 : option Session) (w : World) :
  (forall prev, fst (Options.refreshSub o req prev w)
                <> inl (httpErrors 401 "credentials mismatch")) ->
  ~ In (httpErrors 401 "credentials mismatch")
       (failures (log (associate env o req s0 w))).
Proof.
  intros Hreg. all_runs; simpl; intros H;
    repeat match goal with
           | H : _ \/ _ |- _ => destruct H as [H|H]
           | H : False |- _ => destruct H
           end;
    try discriminate; subst;
    try match goal with
        | H : authenticateHeaderIfPresent _ _ _ = inl _ |- _ =>
            apply authenticateHeaderIfPresent_error in H
              as [H|[H|[k H]]]; discriminate H
        | H : authenticateCookie _ _ _ _ = inl _ |- _ =>
            apply authenticateCookie_error in H as [k H]; discriminate H
        | H : Options.refreshSub ?o ?r ?p ?w0 = (inl _, _) |- _ =>
            apply (Hreg p); rewrite H; reflexivity
        end.
Qed.


(** The callback that re-verifies the refresh cookie, on a failure or a
    subject mismatch: it clears the context and hands the error to the
    continuation, and then goes on to mint a session cookie, for the
    subject of the cleared context, and to call the continuation again. *)
Lemma refreshReverified_failure_continues (env : Env) (o : Options.t)
    (req : Request) (r : Error + option Claims) (st : State) :
  truthy (Options.secret o) = true ->
  is_Some_bool (result_err r)
  || negb (sub_eqb (session_sub (session st)) (result_val r ≫= sub)) = true ->
  snd (refreshReverified env o req r st)
  = mkState empty_session
      (log st
       ++ [Next (Some (default (httpErrors 401 "credentials mismatch")
                         (result_err r)));
           SetCookie cookieNames_session
             (minted env o "session" (Options.sessionMaxAge o) None (uuids st))
             (mkCookieOptions false (secure req) None);
           Next None])
      (S (uuids st)) (world st).
Proof.
  intros Hs Hc. unfold refreshReverified, get_session, put_session, next, emit,
    mbind, M_bind, mret, M_ret; cbv beta iota zeta.
  unfold mbind in Hc. rewrite Hc; cbv beta iota zeta.
  rewrite newSessionCookie_run, Hs; unfold drew; red_run.
  now rewrite <- !app_assoc.
Qed.

(** C1, at a concrete request: a session credential 30 s from expiry (the
    margin is 60 s) in the header, confirmed by the registry, and a
    refresh cookie that fails verification.  The specification's test says
    almost expired; the code's call passes the margin where the options
    are expected and gets false, so the refresh cookie is never
    re-verified: the continuation is called without an error and the
    context is kept. *)
Theorem stale_session_bad_refresh_passes :
  almostExpired Sample.env Sample.staleClaims (WholeOptions Sample.options) = true
  /\ authenticateHeaderIfPresent Sample.env Sample.staleRequest Sample.options
     = inr (Some Sample.staleClaims)
  /\ authenticateCookie Sample.env Sample.staleRequest cookieNames_refresh
       Sample.options = inl (JsonWebTokenError Malformed)
  /\ log (associate Sample.env Sample.options Sample.staleRequest None
            Sample.knownWorld) = [Next None]
  /\ session (associate Sample.env Sample.options Sample.staleRequest None
                Sample.knownWorld)
     = mkSession (Some "aaaaa") false false true (Some Sample.staleClaims).
Proof. repeat split. Qed.

(** The same with a valid refresh cookie of another subject. *)
Lemma stale_session_other_refresh_passes :
  authenticateCookie Sample.env Sample.mismatchRequest cookieNames_refresh
    Sample.options = inr (Some Sample.otherClaims)
  /\ log (associate Sample.env Sample.options Sample.mismatchRequest None
            Sample.knownWorld) = [Next None]
  /\ session_sub (session (associate Sample.env Sample.options
                             Sample.mismatchRequest None Sample.knownWorld))
     = Some "aaaaa".
Proof. repeat split. Qed.

(** Even when the callback is entered on that request, a cookie is minted
    after the failure was reported. *)
Lemma stale_session_callback_mints :
  written (log (snd (refreshReverified Sample.env Sample.options
                       Sample.staleRequest
                       (authenticateCookie Sample.env Sample.staleRequest
                          cookieNames_refresh Sample.options)
                       (initial (Some (mkSession (Some "aaaaa") false false
                                         true (Some Sample.staleClaims)))
                          Sample.knownWorld))))
  = [cookieNames_session]
  /\ failures (log (snd (refreshReverified Sample.env Sample.options
                           Sample.staleRequest
                           (authenticateCookie Sample.env Sample.staleRequest
                              cookieNames_refresh Sample.options)
                           (initial (Some (mkSession (Some "aaaaa") false
                                             false true
                                             (Some Sample.staleClaims)))
                              Sample.knownWorld))))
     = [JsonWebTokenError Malformed].
Proof. split; reflexivity. Qed.

(** * Further properties of the session module *)

(** ** An established context is kept *)

(** A request that enters with a subject in its context is passed on as it
    is: the continuation is called once without error, nothing is written,
    the registry is not consulted, and neither the header nor the cookies
    are read (so a credential for another subject in the header changes
    nothing). *)
Theorem established_context_is_kept (env : Env) (o : Options.t) (req : Request)
    (s : Session) (w : World) :
  truthy_opt (session_sub s) = true ->
  associate env o req (Some s) w = mkState s [Next None] 0 w.
Proof.
  intros Hs. unfold_run; red_run. now rewrite Hs.
Qed.

Lemma established_context_is_kept_witness :
  associate Sample.env Sample.options Sample.expiredRequest
    (Some Sample.cookieSession) Sample.world
  = mkState Sample.cookieSession [Next None] 0 Sample.world.
Proof.
  apply (established_context_is_kept Sample.env Sample.options
           Sample.expiredRequest Sample.cookieSession Sample.world).
  reflexivity.
Defined.

(** ** One continuation per run *)

(** Every run of the association and every run of the mutation guard
    calls the continuation exactly once, whatever the request, the
    options, the entering context and the registry do. *)
Theorem continuation_called_once (env : Env) (o : Options.t) (req : Request)
    (s0 : option Session) (w : World) :
  length (nexts (log (associate env o req s0 w))) = 1%nat
  /\ length (nexts (log (guard env o req s0 w))) = 1%nat.
Proof. split; all_runs; reflexivity. Qed.

(** ** The mutation flag comes from the header only *)

(** The association sets [mutation] only for a valid header credential
    whose subject the registry returns unchanged: a context that has the
    flag after the run had it before, or the header carried such a
    credential.  Cookies alone never set it. *)
Theorem mutation_needs_header (env : Env) (o : Options.t) (req : Request)
    (s0 : option Session) (w : World) :
  mutation (session (associate env o req s0 w)) = true ->
  mutation (default empty_session s0) = true
  \/ exists d w1,
       authenticateHeaderIfPresent env req o = inr (Some d)
       /\ Options.refreshSub o req (sub d) w = (inr (sub d), w1).
Proof.
  all_runs; unfold minted; simpl; intros Hm;
    try (left; exact Hm); try discriminate Hm;
    right;
    match goal with
    | H : sub_eqb ?v (sub ?d) = true |- _ =>
        apply sub_eqb_eq in H; subst v; eauto
    end.
Qed.

Lemma mutation_needs_header_witness :
  mutation (default empty_session None) = true
  \/ exists d w1,
       authenticateHeaderIfPresent Sample.env Sample.headerRequest
         Sample.confirming = inr (Some d)
       /\ Options.refreshSub Sample.confirming Sample.headerRequest (sub d)
            Sample.world = (inr (sub d), w1).
Proof.
  apply (mutation_needs_header Sample.env Sample.confirming
           Sample.headerRequest None Sample.world).
  reflexivity.
Defined.

(** ** Renewal of the session cookie *)

(** Without a header, a valid refresh cookie that the registry confirms
    drives the context.  The run never fails; the refresh slot is not
    written; the session slot is written, once and for the refresh
    credential's subject, exactly when the driving credential has scope
    [refresh] and the session cookie is absent, fails verification or is
    for another subject (a bad session cookie is not an error). *)
Theorem refresh_cookie_renews_session (env : Env) (o : Options.t)
    (req : Request) (w w1 : World) (rd : Claims) :
  authorization req = None ->
  authenticateCookie env req cookieNames_refresh o = inr (Some rd) ->
  Options.refreshSub o req (sub rd) w = (inr (sub rd), w1) ->
  truthy (Options.secret o) = true ->
  let st := associate env o req None w in
  let kept :=
    negb (scope_is_refresh (scope rd))
    || match authenticateCookie env req cookieNames_session o with
       | inr (Some sd) => sub_eqb (sub sd) (sub rd)
       | _ => false
       end in
  nexts (log st) = [None]
  /\ cookieWrites (log st)
     = (if kept then []
        else [SetCookie cookieNames_session
                (minted env o "session" (Options.sessionMaxAge o) (sub rd) 0)
                (mkCookieOptions false (secure req) None)])
  /\ session_sub (session st) = sub rd
  /\ decoded (session st) = Some rd
  /\ mutation (session st) = false
  /\ world st = w1.
Proof.
  intros Hh Hr Hv Hs st kept; subst st kept.
  assert (Hc : cookie_truthy req cookieNames_refresh = true)
    by (eapply authenticateCookie_present; rewrite Hr; discriminate).
  unfold_run; red_run.
  rewrite (authenticateHeaderIfPresent_absent _ _ _ Hh); red_run.
  rewrite Hr; red_run. rewrite Hv; red_run. rewrite sub_eqb_refl; red_run.
  rewrite Hc; red_run.
  destruct (scope_is_refresh (scope rd)); red_run; [|now auto 7].
  destruct (authenticateCookie env req cookieNames_session o) as [e|[sd|]];
    red_run; mint_run; rewrite ?Hs; red_run; auto 7.
  destruct (sub_eqb (sub sd) (sub rd)); red_run; mint_run; rewrite ?Hs;
    red_run; auto 7.
Qed.

Lemma refresh_cookie_renews_session_witness :
  nexts (log (associate Sample.env Sample.confirming
                (mkRequest None
                   (<[cookieNames_refresh := Jwt "keyboard-cat" Sample.refreshClaims]> ∅)
                   true)
                None Sample.world)) = [None]
  /\ cookieWrites (log (associate Sample.env Sample.confirming
                         (mkRequest None
                            (<[cookieNames_refresh :=
                                 Jwt "keyboard-cat" Sample.refreshClaims]> ∅)
                            true)
                         None Sample.world))
     = [SetCookie cookieNames_session
          (Jwt "keyboard-cat"
             (mkClaims "u0" "http://localhost:3000" (Some "aaaaa")
                (ScopeOne "session") 1000 1300))
          (mkCookieOptions false true None)].
Proof.
  pose proof (refresh_cookie_renews_session Sample.env Sample.confirming
                (mkRequest None
                   (<[cookieNames_refresh := Jwt "keyboard-cat" Sample.refreshClaims]> ∅)
                   true)
                Sample.world Sample.world Sample.refreshClaims
                eq_refl eq_refl eq_refl eq_refl) as H.
  cbv zeta in H. destruct H as (Hn & Hw & _).
  exact (conj Hn Hw).
Defined.

(** ** A revoked or rotated subject *)

(** When the registry answers the presented credential (the header's, or
    else the refresh cookie's, or none at all) with another subject and
    the signing secret is not empty, the run mints the refresh and the
    session cookie for that subject and the context starts anew from the
    minted session credential: the new subject, no permission of the old
    scope, and no [mutation] flag even for a credential that came in the
    header.  With an empty secret nothing can be signed: the run writes no
    cookie, hands the signing error to the continuation and leaves the
    context empty. *)
Theorem rotated_subject_starts_anew (env : Env) (o : Options.t) (req : Request)
    (w w1 : World) (d : option Claims) (v : option string) :
  presented env o req = inr d ->
  Options.refreshSub o req (d ≫= sub) w = (inr v, w1) ->
  v <> d ≫= sub ->
  let st := associate env o req None w in
  let rj := minted env o "refresh" (Options.refreshMaxAge o) v 0 in
  let sj := minted env o "session" (Options.sessionMaxAge o) v 1 in
  (truthy (Options.secret o) = true ->
   log st
   = [SetCookie cookieNames_refresh rj
        (mkCookieOptions true (secure req) (Some (Options.refreshMaxAge o)));
      SetCookie cookieNames_session sj
        (mkCookieOptions false (secure req) None);
      Next None]
   /\ session st = mkSession v false false false (TokenCodec.decode sj)
   /\ world st = w1)
  /\ (truthy (Options.secret o) = false ->
      log st = [Next (Some (SignError "secretOrPrivateKey must have a value"))]
      /\ session st = empty_session
      /\ world st = w1).
Proof.
  intros Hp Hr Hne st rj sj; subst st rj sj.
  apply sub_eqb_neq in Hne.
  unfold presented in Hp. unfold mbind in Hr, Hne. unfold_run; red_run.
  destruct (authenticateHeaderIfPresent env req o) as [e|[hd|]];
    [discriminate| |].
  - injection Hp as <-. red_run. cbn [option_bind] in Hr, Hne.
    rewrite Hr; red_run. rewrite Hne; red_run.
    split; intros Hs; mint_run; rewrite Hs; unfold minted; red_run; auto.
  - red_run. rewrite Hp; red_run. rewrite Hr; red_run. rewrite Hne; red_run.
    split; intros Hs; mint_run; rewrite Hs; unfold minted; red_run; auto.
Qed.

Lemma rotated_subject_starts_anew_witness :
  session (associate Sample.env Sample.options
             (mkRequest (Some [Opaque "Bearer";
                               Jwt "keyboard-cat"
                                 (mkClaims "j" "http://localhost:3000"
                                    (Some "ccccc")
                                    (ScopeMany ["session"; "moderate"])
                                    900 1200)]) ∅ false)
             None Sample.world)
  = mkSession (Some "aaaaa") false false false
      (Some (mkClaims "u1" "http://localhost:3000" (Some "aaaaa")
               (ScopeOne "session") 1000 1300)).
Proof.
  pose proof (rotated_subject_starts_anew Sample.env Sample.options
                (mkRequest (Some [Opaque "Bearer";
                                  Jwt "keyboard-cat"
                                    (mkClaims "j" "http://localhost:3000"
                                       (Some "ccccc")
                                       (ScopeMany ["session"; "moderate"])
                                       900 1200)]) ∅ false)
                Sample.world
                (mkWorld (snd (created Sample.emptyStore))
                   (Some (fst (created Sample.emptyStore))))
                (Some (mkClaims "j" "http://localhost:3000" (Some "ccccc")
                         (ScopeMany ["session"; "moderate"]) 900 1200))
                (Some "aaaaa") eq_refl eq_refl) as H.
  cbv zeta in H.
  destruct H as [H _]; [discriminate|].
  destruct (H eq_refl) as (_ & Hs & _). exact Hs.
Defined.

(** ** What the written cookies are *)

Lemma writes_cookieWrites (name : string) (jwt : Token) (l : list Event) :
  In jwt (writes name l) <->
  exists opts, In (SetCookie name jwt opts) (cookieWrites l).
Proof.
  induction l as [|[n v op|e] l IH]; simpl.
  - split; [intros [] | intros [_ []]].
  - destruct (String.eqb n name) eqn:Hn.
    + apply String.eqb_eq in Hn; subst n. simpl. rewrite IH. split.
      * intros [->|[op' H]]; eauto.
      * intros [op' [[= -> ->]|H]]; eauto.
    + apply String.eqb_neq in Hn. rewrite IH. split.
      * intros [op' H]; eauto.
      * intros [op' [[= ? ? ?]|H]]; [congruence | eauto].
  - exact IH.
Qed.

(** Each cookie an association writes is one of two: the refresh token in
    an [httpOnly] cookie with the refresh lifetime as [maxAge], or the
    session token in a script-readable cookie without [maxAge]; both
    mirror the request's [secure] flag and are minted for the subject the
    context ends with. *)
Lemma cookie_events_shape (env : Env) (o : Options.t) (req : Request)
    (s0 : option Session) (w : World) (ev : Event) :
  In ev (cookieWrites (log (associate env o req s0 w))) ->
  exists n,
    ev = SetCookie cookieNames_refresh
           (minted env o "refresh" (Options.refreshMaxAge o)
              (session_sub (session (associate env o req s0 w))) n)
           (mkCookieOptions true (secure req) (Some (Options.refreshMaxAge o)))
    \/ ev = SetCookie cookieNames_session
              (minted env o "session" (Options.sessionMaxAge o)
                 (session_sub (session (associate env o req s0 w))) n)
              (mkCookieOptions false (secure req) None).
Proof.
  all_runs; unfold minted; simpl; intros H;
    repeat match goal with
           | H : _ \/ _ |- _ => destruct H as [<-|H]
           | H : False |- _ => destruct H
           end;
    eexists; (left; reflexivity) || (right; reflexivity).
Qed.

(** Every token written to a cookie slot is signed with the configured
    secret for the configured issuer, carries the subject of the context
    the run ends with, is issued now, and has the scope and the lifetime
    of its slot. *)
Theorem written_tokens_carry_context_subject (env : Env) (o : Options.t)
    (req : Request) (s0 : option Session) (w : World) (name : string)
    (jwt : Token) :
  In jwt (writes name (log (associate env o req s0 w))) ->
  exists c,
    jwt = Jwt (Options.secret o) c
    /\ iss c = Options.iss o
    /\ sub c = session_sub (session (associate env o req s0 w))
    /\ iat c = now env / 1000
    /\ ((name = cookieNames_refresh /\ scope c = ScopeOne "refresh"
         /\ exp c = now env / 1000 + Options.refreshMaxAge o / 1000)
        \/ (name = cookieNames_session /\ scope c = ScopeOne "session"
            /\ exp c = now env / 1000 + Options.sessionMaxAge o / 1000)).
Proof.
  intros H. apply writes_cookieWrites in H as [opts H].
  apply cookie_events_shape in H as [n [[= -> -> _]|[= -> -> _]]];
    unfold minted; eexists; split; try reflexivity; simpl; auto 10.
Qed.

Lemma written_tokens_carry_context_subject_witness :
  exists c,
    Jwt "keyboard-cat"
      (mkClaims "u1" "http://localhost:3000" (Some "aaaaa")
         (ScopeOne "session") 1000 1300)
    = Jwt (Options.secret Sample.options) c
    /\ iss c = Options.iss Sample.options
    /\ sub c = session_sub (session (associate Sample.env Sample.options
                                       Sample.bare None Sample.world))
    /\ iat c = now Sample.env / 1000
    /\ ((cookieNames_session = cookieNames_refresh
         /\ scope c = ScopeOne "refresh"
         /\ exp c = now Sample.env / 1000
                    + Options.refreshMaxAge Sample.options / 1000)
        \/ (cookieNames_session = cookieNames_session
            /\ scope c = ScopeOne "session"
            /\ exp c = now Sample.env / 1000
                       + Options.sessionMaxAge Sample.options / 1000)).
Proof.
  apply (written_tokens_carry_context_subject Sample.env Sample.options
           Sample.bare None Sample.world cookieNames_session).
  simpl. left. reflexivity.
Defined.

(** The attributes of the cookies: the refresh cookie is [httpOnly] with
    the refresh lifetime as [maxAge], the session cookie is readable by
    scripts and has no [maxAge]; [secure] is the request's. *)
Theorem cookie_attributes (env : Env) (o : Options.t) (req : Request)
    (s0 : option Session) (w : World) (name : string) (jwt : Token)
    (opts : CookieOptions) :
  In (SetCookie name jwt opts) (log (associate env o req s0 w)) ->
  cookie_secure opts = secure req
  /\ (name = cookieNames_refresh ->
      httpOnly opts = true /\ maxAge opts = Some (Options.refreshMaxAge o))
  /\ (name = cookieNames_session ->
      httpOnly opts = false /\ maxAge opts = None)
  /\ (name = cookieNames_refresh \/ name = cookieNames_session).
Proof.
  intros H.
  assert (Hc : In (SetCookie name jwt opts)
                 (cookieWrites (log (associate env o req s0 w)))).
  { revert H. generalize (log (associate env o req s0 w)) as l.
    induction l as [|[n v op|e] l IH]; simpl; [tauto| |].
    - intros [H|H]; [left; exact H | right; auto].
    - intros [H|H]; [discriminate | auto]. }
  apply cookie_events_shape in Hc as [n [[= -> _ ->]|[= -> _ ->]]]; simpl;
    repeat split; auto; discriminate.
Qed.

Lemma cookie_attributes_witness :
  cookie_secure (mkCookieOptions false false None) = secure Sample.bare
  /\ (cookieNames_session = cookieNames_refresh ->
      httpOnly (mkCookieOptions false false None) = true
      /\ maxAge (mkCookieOptions false false None)
         = Some (Options.refreshMaxAge Sample.options))
  /\ (cookieNames_session = cookieNames_session ->
      httpOnly (mkCookieOptions false false None) = false
      /\ maxAge (mkCookieOptions false false None) = None)
  /\ (cookieNames_session = cookieNames_refresh
      \/ cookieNames_session = cookieNames_session).
Proof.
  apply (cookie_attributes Sample.env Sample.options Sample.bare None
           Sample.world cookieNames_session
           (Jwt "keyboard-cat"
              (mkClaims "u1" "http://localhost:3000" (Some "aaaaa")
                 (ScopeOne "session") 1000 1300))).
  simpl. right. left. reflexivity.
Defined.

(** ** A returning visitor *)

(** On the server, the two cookies handed to a visitor without
    credentials are accepted when they come back: until the session
    cookie expires, the next request is recognised as the same tracker and
    the same member, nothing is written and the registry is unchanged. *)
Theorem returning_visitor_is_recognised (env env1 : Env)
    (pe : Server.ProcessEnv) (req req1 : Request) (w : World) :
  authorization req = None ->
  cookies req = ∅ ->
  authorization req1 = None ->
  cookies req1 !! cookieNames_refresh
  = head (writes cookieNames_refresh
            (log (associate env (Server.associateOptions pe) req None w))) ->
  cookies req1 !! cookieNames_session
  = head (writes cookieNames_session
            (log (associate env (Server.associateOptions pe) req None w))) ->
  now env1 / 1000 < now env / 1000 + 300 ->
  let st := associate env (Server.associateOptions pe) req None w in
  let st1 := associate env1 (Server.associateOptions pe) req1 None (world st) in
  log st1 = [Next None]
  /\ is_Some_bool (session_sub (session st)) = true
  /\ session_sub (session st1) = session_sub (session st)
  /\ world st1 = world st.
Proof.
  intros Hh Hc Hh1 Hr1 Hs1 Ht st st1; subst st st1.
  assert (Hk : cookies req !! cookieNames_refresh = None)
    by (rewrite Hc; apply lookup_empty).
  revert Hr1 Hs1.
  unfold associate at 1 2 4 5.
  unfold_run; red_run.
  rewrite (authenticateHeaderIfPresent_absent _ _ _ Hh); red_run.
  rewrite (authenticateCookie_absent _ _ _ _ Hk); red_run.
  rewrite refreshSub_unseen by reflexivity; red_run.
  cbn [sub_eqb]. mint_run. red_run.
  rewrite SESSION_SECRET_truthy; red_run. unfold minted; simpl.
  intros Hr1 Hs1.
  set (t := Member.random (store w) (Member.drawn (store w))) in *.
  set (o := Server.associateOptions pe).
  match type of Hr1 with
  | _ = Some (Jwt _ ?c) =>
      assert (Ha : authenticateCookie env1 req1 cookieNames_refresh o
                   = inr (Some c))
        by (apply authenticateCookie_ok; split; [exact Hr1|];
            split; [simpl; clear -Ht;
                    change (now env1 / 1000 < now env / 1000 + 31536000);
                    lia
                   | reflexivity])
  end.
  match type of Hs1 with
  | _ = Some (Jwt _ ?c) =>
      assert (Hb : authenticateCookie env1 req1 cookieNames_session o
                   = inr (Some c))
        by (apply authenticateCookie_ok; split; [exact Hs1|];
            split; [simpl; exact Ht | reflexivity])
  end.
  assert (Hp : cookie_truthy req1 cookieNames_refresh = true)
    by (eapply authenticateCookie_present; rewrite Ha; discriminate).
  unfold associate. unfold_run; red_run.
  rewrite (authenticateHeaderIfPresent_absent _ _ _ Hh1); red_run.
  fold o. rewrite Ha; red_run.
  rewrite (refreshSub_found _ _ _ (fst (created (store w))))
    by apply created_found.
  red_run. rewrite sub_eqb_refl; red_run. rewrite Hp; red_run.
  cbn [scope_is_refresh String.eqb Ascii.eqb Bool.eqb]; red_run.
  fold o. rewrite Hb; red_run. rewrite sub_eqb_refl; red_run.
  auto.
Qed.

Lemma returning_visitor_is_recognised_witness :
  log (associate (mkEnv 1200000 (fun _ => "u9")) Sample.options
         (mkRequest None
            (<[cookieNames_refresh :=
                 Jwt "keyboard-cat"
                   (mkClaims "u0" "http://localhost:3000" (Some "aaaaa")
                      (ScopeOne "refresh") 1000 31537000)]>
               (<[cookieNames_session :=
                    Jwt "keyboard-cat"
                      (mkClaims "u1" "http://localhost:3000" (Some "aaaaa")
                         (ScopeOne "session") 1000 1300)]> ∅))
            false)
         None
         (world (associate Sample.env Sample.options Sample.bare None
                   Sample.world)))
  = [Next None].
Proof.
  apply (returning_visitor_is_recognised Sample.env
           (mkEnv 1200000 (fun _ => "u9")) Sample.penv Sample.bare
           (mkRequest None
              (<[cookieNames_refresh :=
                   Jwt "keyboard-cat"
                     (mkClaims "u0" "http://localhost:3000" (Some "aaaaa")
                        (ScopeOne "refresh") 1000 31537000)]>
                 (<[cookieNames_session :=
                      Jwt "keyboard-cat"
                        (mkClaims "u1" "http://localhost:3000" (Some "aaaaa")
                           (ScopeOne "session") 1000 1300)]> ∅))
              false)
           Sample.world); reflexivity.
Defined.

(** ** Double submit *)

(** The session cookie an association has just written, copied into the
    [Authorization] header of a request before it expires, passes the
    mutation guard on the context of that association: the guard
    continues without error and the context has [mutation] set. *)
Theorem double_submit_passes_guard (env env1 : Env) (o : Options.t)
    (req reqm : Request) (s0 : option Session) (w w1 : World) (sj : Token) :
  In sj (writes cookieNames_session (log (associate env o req s0 w))) ->
  authorization reqm = Some [Opaque "Bearer"; sj] ->
  now env1 / 1000 < now env / 1000 + Options.sessionMaxAge o / 1000 ->
  guard env1 o reqm (Some (session (associate env o req s0 w))) w1
  = mkState (set_mutation (session (associate env o req s0 w)))
      [Next None] 0 w1.
Proof.
  intros Hin Hh Ht.
  apply writes_cookieWrites in Hin as [opts Hin].
  apply cookie_events_shape in Hin as [n [Hin|Hin]]; [discriminate Hin|].
  injection Hin as -> _.
  set (s := session (associate env o req s0 w)) in *.
  unfold minted in Hh.
  match type of Hh with
  | _ = Some [_; Jwt _ ?c] =>
      assert (Ha : authenticateHeaderIfPresent env1 reqm o = inr (Some c))
        by (apply authenticateHeaderIfPresent_Bearer;
            [exact Hh | simpl; lia | reflexivity])
  end.
  unfold_run; red_run.
  destruct (mutation s) eqn:Hm; red_run.
  - f_equal. destruct s; simpl in *; now subst.
  - rewrite Ha; red_run. rewrite sub_eqb_refl; red_run. reflexivity.
Qed.

Lemma double_submit_passes_guard_witness :
  guard Sample.env Sample.options
    (mkRequest (Some [Opaque "Bearer";
                      Jwt "keyboard-cat"
                        (mkClaims "u1" "http://localhost:3000" (Some "aaaaa")
                           (ScopeOne "session") 1000 1300)]) ∅ false)
    (Some (session (associate Sample.env Sample.options Sample.bare None
                      Sample.world)))
    Sample.world
  = mkState (set_mutation (session (associate Sample.env Sample.options
                                      Sample.bare None Sample.world)))
      [Next None] 0 Sample.world.
Proof.
  apply (double_submit_passes_guard Sample.env Sample.env Sample.options
           Sample.bare
           (mkRequest (Some [Opaque "Bearer";
                             Jwt "keyboard-cat"
                               (mkClaims "u1" "http://localhost:3000"
                                  (Some "aaaaa") (ScopeOne "session")
                                  1000 1300)]) ∅ false)
           None Sample.world Sample.world
           (Jwt "keyboard-cat"
              (mkClaims "u1" "http://localhost:3000" (Some "aaaaa")
                 (ScopeOne "session") 1000 1300))).
  - simpl. left. reflexivity.
  - reflexivity.
  - reflexivity.
Defined.

(** ** The guard changes nothing but the flag *)

(** The mutation guard writes no cookie, leaves the registry alone and
    changes the context at most by setting [mutation], which it does only
    on runs without error; a context that has the flag already is passed
    on without the header being read. *)
Theorem guard_only_sets_mutation (env : Env) (o : Options.t) (req : Request)
    (s0 : option Session) (w : World) :
  cookieWrites (log (guard env o req s0 w)) = []
  /\ world (guard env o req s0 w) = w
  /\ (session (guard env o req s0 w) = default empty_session s0
      \/ (session (guard env o req s0 w)
          = set_mutation (default empty_session s0)
          /\ log (guard env o req s0 w) = [Next None]))
  /\ (mutation (default empty_session s0) = true ->
      guard env o req s0 w
      = mkState (default empty_session s0) [Next None] 0 w).
Proof.
  all_runs; repeat split; auto; discriminate.
Qed.

Lemma guard_only_sets_mutation_witness :
  guard Sample.env Sample.options Sample.expiredRequest
    (Some (set_mutation Sample.cookieSession)) Sample.world
  = mkState (set_mutation Sample.cookieSession) [Next None] 0 Sample.world.
Proof.
  apply (guard_only_sets_mutation Sample.env Sample.options
           Sample.expiredRequest (Some (set_mutation Sample.cookieSession))
           Sample.world).
  reflexivity.
Defined.

(** ** Which headers are accepted *)

Lemma header_accepted_sound (env : Env) (req : Request) (o : Options.t)
    (c : Claims) :
  authenticateHeaderIfPresent env req o = inr (Some c) ->
  exists h s,
    authorization req = Some h
    /\ header_split h = [Opaque s; Jwt (Options.secret o) c]
    /\ lower s = "bearer"
    /\ now env / 1000 < exp c
    /\ iss c = Options.iss o.
Proof.
  unfold authenticateHeaderIfPresent.
  destruct (authorization req) as [h|]; [|discriminate].
  destruct (negb (header_truthy h)); [discriminate|].
  destruct (header_split h) as [|f0 [|f1 [|f2 fs]]] eqn:Hsp;
    cbn -[TokenCodec.verify]; try discriminate.
  - destruct (negb _); [discriminate|].
    destruct (TokenCodec.verify _ _ _ _) eqn:Hv; [discriminate|].
    apply verify_ok in Hv as ([=] & _).
  - destruct f0 as [k p|s]; cbn -[TokenCodec.verify]; [discriminate|].
    destruct (String.eqb (lower s) "bearer") eqn:Hs; cbn -[TokenCodec.verify];
      [|discriminate].
    destruct (TokenCodec.verify _ _ _ _) as [e|c'] eqn:Hv; [discriminate|].
    intros [= <-]. apply verify_ok in Hv as ([= ->] & Ht & Hi).
    apply String.eqb_eq in Hs. exists h, s. auto.
Qed.

(** The header reader yields a credential exactly for a header of two
    fields, the word [Bearer] in any letter case and a token that is
    signed with the secret, not expired, and of this issuer. *)
Theorem header_accepted_iff (env : Env) (req : Request) (o : Options.t)
    (c : Claims) :
  authenticateHeaderIfPresent env req o = inr (Some c) <->
  exists h s,
    authorization req = Some h
    /\ header_split h = [Opaque s; Jwt (Options.secret o) c]
    /\ lower s = "bearer"
    /\ now env / 1000 < exp c
    /\ iss c = Options.iss o.
Proof.
  split; [apply header_accepted_sound|].
  unfold authenticateHeaderIfPresent.
  - intros (h & s & -> & Hsp & Hs & Ht & Hi).
    assert (Htr : header_truthy h = true).
    { destruct h as [|[k p|t] [|f fs]]; try reflexivity; [discriminate|].
      simpl in Hsp. rewrite app_nil_r in Hsp.
      destruct t; [discriminate | reflexivity]. }
    rewrite Htr, Hsp. cbn -[TokenCodec.verify String.eqb]. rewrite Hs.
    cbn -[TokenCodec.verify].
    assert (Hv : TokenCodec.verify (now env) (Some (Jwt (Options.secret o) c))
                   (Options.secret o) (Options.iss o) = inr c)
      by (apply verify_ok; auto).
    now rewrite Hv.
Qed.

Lemma header_accepted_iff_witness :
  authenticateHeaderIfPresent Sample.env
    (mkRequest (Some [Opaque "BEARER"; Jwt "keyboard-cat" Sample.headerClaims])
       ∅ false) Sample.options
  = inr (Some Sample.headerClaims).
Proof.
  apply (header_accepted_iff Sample.env
           (mkRequest (Some [Opaque "BEARER";
                             Jwt "keyboard-cat" Sample.headerClaims]) ∅ false)
           Sample.options Sample.headerClaims).
  exists [Opaque "BEARER"; Jwt "keyboard-cat" Sample.headerClaims], "BEARER".
  repeat split.
Defined.

(** A header with more than two fields is refused for its format before
    its scheme is looked at. *)
Theorem header_extra_fields_bad_format (env : Env) (req : Request)
    (o : Options.t) (h : list Token) :
  authorization req = Some h ->
  (2 < length (header_split h))%nat ->
  authenticateHeaderIfPresent env req o
  = inl (httpErrors 401 "credentials bad format").
Proof.
  intros Hh Hl. unfold authenticateHeaderIfPresent. rewrite Hh.
  assert (Htr : header_truthy h = true).
  { destruct h as [|[k p|t] [|f fs]]; try reflexivity;
      [simpl in Hl; lia|].
    simpl in Hl. rewrite app_nil_r, length_map in Hl.
    destruct t; [simpl in Hl; lia | reflexivity]. }
  rewrite Htr. cbn -[header_split].
  destruct (header_split h) as [|f0 [|f1 [|f2 fs]]]; simpl in Hl; try lia.
  reflexivity.
Qed.

Lemma header_extra_fields_bad_format_witness :
  authenticateHeaderIfPresent Sample.env
    (mkRequest (Some [Opaque "Basic a b"]) ∅ false) Sample.options
  = inl (httpErrors 401 "credentials bad format").
Proof.
  apply (header_extra_fields_bad_format Sample.env
           (mkRequest (Some [Opaque "Basic a b"]) ∅ false) Sample.options
           [Opaque "Basic a b"]).
  - reflexivity.
  - simpl. lia.
Defined.

(** ** The standalone entry point *)

(** The standalone entry point accepts the tokens the header reader
    accepts after [Bearer], and resolves to the subject of the credential
    the header reader yields. *)
Theorem standalone_agrees_with_header (env : Env) (o : Options.t)
    (req : Request) (jwt : Token) (s : option string) :
  authorization req = Some [Opaque "Bearer"; jwt] ->
  (promiseAuthenticateForMutation env (Options.iss o) (Options.secret o)
     (Some jwt) = inr s
   <-> exists c, authenticateHeaderIfPresent env req o = inr (Some c)
                 /\ sub c = s).
Proof.
  intros Hh. unfold promiseAuthenticateForMutation. split.
  - destruct (TokenCodec.verify _ _ _ _) as [e|c] eqn:Hv; [discriminate|].
    intros [= <-]. exists c. split; [|reflexivity].
    apply verify_ok in Hv as ([= ->] & Ht & Hi).
    now apply authenticateHeaderIfPresent_Bearer.
  - intros (c & Ha & <-).
    apply header_accepted_sound in Ha as (h & t & Hh' & Hsp & _ & Ht & Hi).
    rewrite Hh in Hh'. injection Hh' as <-.
    assert (jwt = Jwt (Options.secret o) c) as ->.
    { destruct jwt as [k p|txt]; simpl in Hsp.
      - injection Hsp as _ Hk Hp. now subst.
      - destruct (split_space txt) as [|x [|y l]]; simpl in Hsp; discriminate. }
    assert (Hv : TokenCodec.verify (now env) (Some (Jwt (Options.secret o) c))
                   (Options.secret o) (Options.iss o) = inr c)
      by (apply verify_ok; auto).
    now rewrite Hv.
Qed.

Lemma standalone_agrees_with_header_witness :
  promiseAuthenticateForMutation Sample.env (Options.iss Sample.options)
    (Options.secret Sample.options)
    (Some (Jwt "keyboard-cat" Sample.headerClaims)) = inr (Some "aaaaa")
  <-> exists c,
        authenticateHeaderIfPresent Sample.env Sample.headerRequest
          Sample.options = inr (Some c)
        /\ sub c = Some "aaaaa".
Proof.
  apply (standalone_agrees_with_header Sample.env Sample.options
           Sample.headerRequest (Jwt "keyboard-cat" Sample.headerClaims)
           (Some "aaaaa")).
  reflexivity.
Defined.

(** * The member registry *)

(** ** Insert and look up *)

(** A member inserted for a tracker is found under that tracker and under
    its own handle; its handle is the one given, or a generated one when
    none (or an empty one) is given; no other key of the registry
    changes. *)
Theorem insert_then_lookup (tracker : string) (handle0 : option string)
    (s : Member.Store) :
  let m := fst (Member.insert tracker handle0 s) in
  let s1 := snd (Member.insert tracker handle0 s) in
  Member.findByTracker (Some tracker) s1 = Some m
  /\ Member.getByHandle (Member.handle m) s1 = Some m
  /\ Member.handle m
     = (if truthy_opt handle0 then default "" handle0
        else Member.random s (Member.drawn s))
  /\ Member.drawn s1
     = (if truthy_opt handle0 then Member.drawn s else S (Member.drawn s))
  /\ (forall k, k <> tracker -> k <> Member.handle m ->
                Member.trackerToMember s1 !! k = Member.trackerToMember s !! k).
Proof.
  unfold Member.insert, Member.findByTracker, Member.getByHandle,
    Member.generateTracker.
  destruct handle0 as [h|]; simpl; [destruct (truthy h); simpl|].
  all: repeat split; try apply lookup_insert_eq.
  all: try (destruct (decide (tracker = h)) as [->|Hne];
            [apply lookup_insert_eq
            | rewrite lookup_insert_ne by exact Hne; apply lookup_insert_eq]).
  all: try (destruct (decide (tracker = Member.random s (Member.drawn s)))
              as [->|Hne];
            [apply lookup_insert_eq
            | rewrite lookup_insert_ne by exact Hne; apply lookup_insert_eq]).
  all: intros k Hk1 Hk2; rewrite !lookup_insert_ne by congruence; reflexivity.
Qed.

Lemma insert_then_lookup_witness :
  Member.findByTracker (Some "aaaaa")
    (snd (Member.insert "aaaaa" None Sample.emptyStore))
  = Some (fst (Member.insert "aaaaa" None Sample.emptyStore)).
Proof.
  exact (proj1 (insert_then_lookup "aaaaa" None Sample.emptyStore)).
Defined.

(** ** Blacklisting *)

(** A blacklisted tracker is no longer found, whoever owned it; every
    other key is untouched, so the member stays reachable under its
    handle; and the server's [refreshSub] then answers that tracker with a
    newly generated one, for which it creates a member. *)
Theorem blacklisted_tracker_is_replaced (tracker : string) (s : Member.Store)
    (req : Request) (mem : option Member.t) :
  let s1 := Member.blackListTracker tracker s in
  Member.findByTracker (Some tracker) s1 = None
  /\ (forall k, k <> tracker ->
                Member.trackerToMember s1 !! k = Member.trackerToMember s !! k)
  /\ Server.refreshSub req (Some tracker) (mkWorld s1 mem)
     = (inr (Some (Member.random s (Member.drawn s))),
        mkWorld (snd (created s1)) (Some (fst (created s1)))).
Proof.
  intros s1.
  assert (Hf : Member.findByTracker (Some tracker) s1 = None)
    by apply lookup_delete_eq.
  split; [exact Hf|]. split.
  - intros k Hk. subst s1; simpl. apply lookup_delete_ne. congruence.
  - now rewrite (refreshSub_unseen req (Some tracker) (mkWorld s1 mem)).
Qed.

Lemma blacklisted_tracker_is_replaced_witness :
  Member.findByTracker (Some "aaaaa")
    (Member.blackListTracker "aaaaa" (store Sample.knownWorld)) = None.
Proof.
  exact (proj1 (blacklisted_tracker_is_replaced "aaaaa"
                  (store Sample.knownWorld) Sample.bare None)).
Defined.

(** ** Handles and trackers share one map *)

(** [getByHandle] is the same lookup as [findByTracker], so a member is
    also returned for any of the keys that are trackers; and a member
    inserted with a handle that is already a key, be it another member's
    tracker, takes that key over. *)
Theorem handle_takes_over_key (tracker h : string) (s : Member.Store)
    (other : Member.t) :
  truthy h = true ->
  Member.findByTracker (Some h) s = Some other ->
  h <> tracker ->
  let m := fst (Member.insert tracker (Some h) s) in
  let s1 := snd (Member.insert tracker (Some h) s) in
  Member.getByHandle h s = Some other
  /\ Member.findByTracker (Some h) s1 = Some m
  /\ Member.getByHandle h s1 = Some m
  /\ m = Member.constructor h tracker.
Proof.
  intros Hh Hf Hne m s1; subst m s1.
  unfold Member.insert, Member.findByTracker, Member.getByHandle in *.
  rewrite Hh; simpl. repeat split; try exact Hf.
  all: rewrite lookup_insert_ne by congruence; apply lookup_insert_eq.
Qed.

Lemma handle_takes_over_key_witness :
  Member.findByTracker (Some "aaaaa")
    (snd (Member.insert "ccccc" (Some "aaaaa") (store Sample.knownWorld)))
  = Some (Member.mk "aaaaa" ["ccccc"]).
Proof.
  pose proof (handle_takes_over_key "ccccc" "aaaaa" (store Sample.knownWorld)
                (Member.mk "bbbbb" ["aaaaa"]) eq_refl eq_refl) as H.
  cbv zeta in H. destruct H as (_ & H & _); [discriminate|]. exact H.
Defined.

(** * The server's registry callback *)

(** ** The attached member *)

(** On the server, after a run of the association that reports no error,
    for a request that entered without a context, [req.member] is set and
    is the member the registry holds for the subject of the context.  So
    the member view answers [@me] with that member, and answers the
    context's own tracker, used as a handle, with the same member. *)
Theorem attached_member_is_the_contexts (env : Env) (pe : Server.ProcessEnv)
    (req : Request) (w : World) :
  failures (log (associate env (Server.associateOptions pe) req None w)) = [] ->
  exists m,
    req_member (world (associate env (Server.associateOptions pe) req None w))
    = Some m
    /\ Member.findByTracker
         (session_sub (session (associate env (Server.associateOptions pe)
                                  req None w)))
         (store (world (associate env (Server.associateOptions pe) req None w)))
       = Some m
    /\ Api.members_view "@me"
         (world (associate env (Server.associateOptions pe) req None w))
       = Api.Json 200 (Some m)
    /\ (forall t,
           session_sub (session (associate env (Server.associateOptions pe)
                                   req None w)) = Some t ->
           Api.members_view t
             (world (associate env (Server.associateOptions pe) req None w))
           = Api.Json 200 (Some m)).
Proof.
  intros Hf.
  assert (H : exists m,
             req_member (world (associate env (Server.associateOptions pe)
                                  req None w)) = Some m
             /\ Member.findByTracker
                  (session_sub (session (associate env
                                           (Server.associateOptions pe)
                                           req None w)))
                  (store (world (associate env (Server.associateOptions pe)
                                   req None w))) = Some m).
  { revert Hf. unfold_run; mint_run; red_run.
    repeat match goal with
    | |- context [Server.refreshSub ?r ?p ?w0] =>
        destruct (refreshSub_cases r p w0) as [(m & Hf & ->)|[Hf ->]]; red_run
    | _ => split_step
    end;
      unfold minted; simpl; try discriminate;
      try match goal with
          | H : sub_eqb ?a ?a = false |- _ =>
              rewrite sub_eqb_refl in H; discriminate H
          end;
      intros _; eexists; (split; [reflexivity|]);
      try exact Hf; try apply created_found;
      try match goal with
          | H : sub_eqb (Some _) ?p = true |- _ =>
              apply sub_eqb_eq in H; rewrite <- H; apply created_found
          end. }
  destruct H as (m & Hm & Hfind). exists m.
  split; [exact Hm|]. split; [exact Hfind|]. split.
  - unfold Api.members_view. simpl. now rewrite Hm.
  - intros t Ht. rewrite Ht in Hfind. unfold Api.members_view.
    destruct (String.eqb t "@me"); [now rewrite Hm|].
    unfold Member.getByHandle. simpl in Hfind. now rewrite Hfind.
Qed.

Lemma attached_member_is_the_contexts_witness :
  exists m,
    req_member (world (associate Sample.env Sample.options Sample.bare None
                         Sample.world)) = Some m
    /\ Api.members_view "aaaaa"
         (world (associate Sample.env Sample.options Sample.bare None
                   Sample.world))
       = Api.Json 200 (Some m).
Proof.
  destruct (attached_member_is_the_contexts Sample.env Sample.penv Sample.bare
              Sample.world eq_refl) as (m & Hm & _ & _ & Hv).
  exists m. split; [exact Hm|]. apply Hv. reflexivity.
Defined.

(** ** A revoked tracker comes back *)

(** On the server, a request whose valid refresh cookie names a tracker
    that was blacklisted gets both cookies minted for the tracker the
    registry generates, and the context is that tracker's, provided the
    generated tracker differs from the blacklisted one.  If the registry
    generates the blacklisted tracker again, no refresh cookie is minted
    and the context keeps that tracker. *)
Theorem revoked_refresh_cookie_is_rotated (env : Env) (pe : Server.ProcessEnv)
    (req : Request) (s : Member.Store) (mem : option Member.t) (rd : Claims)
    (t : string) :
  authorization req = None ->
  authenticateCookie env req cookieNames_refresh (Server.associateOptions pe)
  = inr (Some rd) ->
  sub rd = Some t ->
  let w := mkWorld (Member.blackListTracker t s) mem in
  let t1 := Member.random s (Member.drawn s) in
  let st := associate env (Server.associateOptions pe) req None w in
  (t1 <> t ->
   written (log st) = [cookieNames_refresh; cookieNames_session]
   /\ failures (log st) = []
   /\ session_sub (session st) = Some t1
   /\ Member.findByTracker (Some t1) (store (world st)) = req_member (world st))
  /\ (t1 = t ->
      writes cookieNames_refresh (log st) = []
      /\ failures (log st) = []
      /\ session_sub (session st) = Some t
      /\ Member.findByTracker (Some t) (store (world st)) = req_member (world st)).
Proof.
  intros Hh Hr Hsub w t1 st; subst w t1 st.
  assert (Hc : cookie_truthy req cookieNames_refresh = true)
    by (eapply authenticateCookie_present; rewrite Hr; discriminate).
  unfold_run; red_run.
  rewrite (authenticateHeaderIfPresent_absent _ _ _ Hh); red_run.
  rewrite Hr; red_run. rewrite Hsub.
  rewrite refreshSub_unseen by (simpl; apply lookup_delete_eq).
  red_run. cbn [sub_eqb]. split.
  - intros Hne. apply String.eqb_neq in Hne. rewrite Hne. mint_run; red_run.
    rewrite SESSION_SECRET_truthy; unfold minted; red_run.
    repeat split. apply lookup_insert_eq.
  - intros He. subst t. rewrite String.eqb_refl. red_run.
    rewrite Hc; red_run.
    repeat split_step; rewrite ?SESSION_SECRET_truthy in *; try discriminate;
      simpl; repeat split; try apply lookup_insert_eq; try exact Hsub.
Qed.

Lemma revoked_refresh_cookie_is_rotated_witness :
  written (log (associate Sample.env Sample.options
                  (mkRequest None
                     (<[cookieNames_refresh :=
                          Jwt "keyboard-cat" Sample.otherClaims]> ∅) false)
                  None
                  (mkWorld (Member.blackListTracker "zzzzz" Sample.emptyStore)
                     None)))
  = [cookieNames_refresh; cookieNames_session].
Proof.
  pose proof (revoked_refresh_cookie_is_rotated Sample.env Sample.penv
                (mkRequest None
                   (<[cookieNames_refresh :=
                        Jwt "keyboard-cat" Sample.otherClaims]> ∅) false)
                Sample.emptyStore None Sample.otherClaims "zzzzz"
                eq_refl eq_refl eq_refl) as H.
  cbv zeta in H. destruct H as [H _].
  destruct H as (H & _); [discriminate|]. exact H.
Defined.

(** * Members as objects *)

(** ** The by-value registry is the view of the object registry *)

Lemma omap_members_insert_fresh (h : Objects.Heap) (m : Member.t) :
  Objects.allocated h ->
  omap (fun r => <[Objects.fresh h := m]> (Objects.members h) !! r)
       (Objects.trackerToMember h)
  = omap (fun r => Objects.members h !! r) (Objects.trackerToMember h).
Proof.
  intros Ha. apply map_eq; intros k. rewrite !lookup_omap.
  destruct (Objects.trackerToMember h !! k) as [r|] eqn:Hk; simpl; [|done].
  apply Ha in Hk. rewrite lookup_insert_ne by lia. done.
Qed.

(** As long as objects are only created, looked up and blacklisted, the
    registry of objects and the registry of values agree: each operation
    on the objects is, through [view], the operation on the values, and
    allocation stays in order. *)
Theorem objects_refine_values (h : Objects.Heap) (tracker : string)
    (handle0 : option string) (k : option string) :
  Objects.allocated h ->
  Objects.view (snd (Objects.insert tracker handle0 h))
  = snd (Member.insert tracker handle0 (Objects.view h))
  /\ Objects.deref (fst (Objects.insert tracker handle0 h))
       (snd (Objects.insert tracker handle0 h))
     = Some (fst (Member.insert tracker handle0 (Objects.view h)))
  /\ Objects.allocated (snd (Objects.insert tracker handle0 h))
  /\ (Objects.findByTracker k h ≫= fun r => Objects.deref r h)
     = Member.findByTracker k (Objects.view h)
  /\ Objects.view (Objects.blackListTracker tracker h)
     = Member.blackListTracker tracker (Objects.view h)
  /\ Objects.allocated (Objects.blackListTracker tracker h).
Proof.
  intros Ha.
  assert (Hins : forall hd (h1 : Objects.Heap),
             Objects.allocated h1 ->
             let m := Member.constructor hd tracker in
             omap (fun r => <[Objects.fresh h1 := m]> (Objects.members h1) !! r)
               (<[tracker := Objects.fresh h1]>
                  (<[hd := Objects.fresh h1]> (Objects.trackerToMember h1)))
             = <[tracker := m]>
                 (<[hd := m]>
                    (omap (fun r => Objects.members h1 !! r)
                       (Objects.trackerToMember h1)))).
  { intros hd h1 Ha1 m. rewrite <- (omap_members_insert_fresh h1 m Ha1).
    apply map_eq; intros x. rewrite lookup_omap.
    destruct (decide (x = tracker)) as [->|Hx].
    - rewrite !lookup_insert_eq. simpl. apply lookup_insert_eq.
    - rewrite !(lookup_insert_ne _ tracker) by congruence.
      destruct (decide (x = hd)) as [->|Hy].
      + rewrite !lookup_insert_eq. simpl. apply lookup_insert_eq.
      + rewrite !(lookup_insert_ne _ hd) by congruence.
        now rewrite lookup_omap. }
  assert (Hal : forall hd (h1 : Objects.Heap),
             Objects.allocated h1 ->
             forall x r,
               <[tracker := Objects.fresh h1]>
                 (<[hd := Objects.fresh h1]> (Objects.trackerToMember h1)) !! x
               = Some r -> (r < S (Objects.fresh h1))%nat).
  { intros hd h1 Ha1 x r.
    destruct (decide (x = tracker)) as [->|Hx].
    - rewrite lookup_insert_eq. intros [= <-]. lia.
    - rewrite lookup_insert_ne by congruence.
      destruct (decide (x = hd)) as [->|Hy].
      + rewrite lookup_insert_eq. intros [= <-]. lia.
      + rewrite lookup_insert_ne by congruence. intros Hr.
        apply Ha1 in Hr. lia. }
  assert (Hgen : Objects.allocated (snd (Objects.generateTracker h)))
    by exact Ha.
  repeat split.
  - unfold Objects.insert, Member.insert, Objects.view.
    destruct handle0 as [x|]; [destruct (truthy x)|]; simpl;
      f_equal; now apply Hins.
  - unfold Objects.insert, Member.insert, Objects.deref.
    destruct handle0 as [x|]; [destruct (truthy x)|]; simpl;
      apply lookup_insert_eq.
  - unfold Objects.insert.
    destruct handle0 as [x|]; [destruct (truthy x)|]; simpl;
      intros y r; simpl; now apply Hal.
  - destruct k as [x|]; simpl; [|reflexivity].
    unfold Objects.deref. now rewrite lookup_omap.
  - unfold Objects.view, Objects.blackListTracker, Member.blackListTracker;
      simpl. f_equal. apply map_eq; intros x.
    rewrite lookup_omap.
    destruct (decide (x = tracker)) as [->|Hx].
    + now rewrite !lookup_delete_eq.
    + rewrite !lookup_delete_ne by congruence. now rewrite lookup_omap.
  - intros x r; simpl.
    destruct (decide (x = tracker)) as [->|Hx].
    + now rewrite lookup_delete_eq.
    + rewrite lookup_delete_ne by congruence. apply Ha.
Qed.

Lemma objects_refine_values_witness :
  Objects.view
    (snd (Objects.insert "aaaaa" None
            (Objects.mkHeap ∅ 0 ∅ (Member.random Sample.emptyStore) 0)))
  = snd (Member.insert "aaaaa" None
           (Objects.view
              (Objects.mkHeap ∅ 0 ∅ (Member.random Sample.emptyStore) 0))).
Proof.
  apply (objects_refine_values
           (Objects.mkHeap ∅ 0 ∅ (Member.random Sample.emptyStore) 0)
           "aaaaa" None None).
  intros k r H. simpl in H. rewrite lookup_empty in H. discriminate H.
Defined.

(** ** Claiming a tracker *)

(** After a member claims a tracker, the tracker refers to that member,
    whose list of trackers ends with it, and every key that referred to
    the member shows the longer list.  No other object changes: the member
    that had the tracker before still lists it, while the tracker no
    longer leads to that member. *)
Theorem claimTracker_shares_and_leaves_stale (this : nat) (tracker : string)
    (h : Objects.Heap) (m : Member.t) :
  Objects.members h !! this = Some m ->
  let h1 := Objects.claimTracker this tracker h in
  let m1 := Member.mk (Member.handle m) (Member.trackers m ++ [tracker]) in
  Objects.findByTracker (Some tracker) h1 = Some this
  /\ Objects.deref this h1 = Some m1
  /\ (forall k, Objects.trackerToMember h !! k = Some this ->
                Member.findByTracker (Some k) (Objects.view h1) = Some m1)
  /\ (forall k, k <> tracker ->
                Objects.trackerToMember h1 !! k = Objects.trackerToMember h !! k)
  /\ (forall other b,
         other <> this ->
         Objects.members h !! other = Some b ->
         Objects.deref other h1 = Some b)
  /\ (forall other b,
         other <> this ->
         Objects.findByTracker (Some tracker) h = Some other ->
         Objects.members h !! other = Some b ->
         In tracker (Member.trackers b) ->
         Objects.deref other h1 = Some b
         /\ In tracker (Member.trackers b)
         /\ Objects.findByTracker (Some tracker) h1 <> Some other).
Proof.
  intros Hm h1 m1; subst h1 m1.
  unfold Objects.claimTracker, Objects.findByTracker, Objects.deref,
    Objects.view, Member.findByTracker; simpl.
  assert (Hthis : alter
                    (fun m0 => Member.mk (Member.handle m0)
                                 (Member.trackers m0 ++ [tracker]))
                    this (Objects.members h) !! this
                  = Some (Member.mk (Member.handle m)
                            (Member.trackers m ++ [tracker])))
    by (rewrite lookup_alter_eq, Hm; reflexivity).
  repeat split.
  - apply lookup_insert_eq.
  - exact Hthis.
  - intros k Hk. rewrite lookup_omap.
    destruct (decide (k = tracker)) as [->|Hne].
    + rewrite lookup_insert_eq. exact Hthis.
    + rewrite lookup_insert_ne by congruence. rewrite Hk. exact Hthis.
  - intros k Hne. apply lookup_insert_ne. congruence.
  - intros other b Hne Hb. rewrite lookup_alter_ne by congruence. exact Hb.
  - rewrite lookup_alter_ne by congruence. assumption.
  - assumption.
  - rewrite lookup_insert_eq. congruence.
Qed.

Lemma claimTracker_shares_and_leaves_stale_witness :
  Objects.deref 0
    (Objects.claimTracker 0 "ccccc"
       (snd (Objects.insert "aaaaa" (Some "bbbbb")
               (Objects.mkHeap ∅ 0 ∅ (Member.random Sample.emptyStore) 0))))
  = Some (Member.mk "bbbbb" ["aaaaa"; "ccccc"]).
Proof.
  pose proof (claimTracker_shares_and_leaves_stale 0 "ccccc"
                (snd (Objects.insert "aaaaa" (Some "bbbbb")
                        (Objects.mkHeap ∅ 0 ∅
                           (Member.random Sample.emptyStore) 0)))
                (Member.mk "bbbbb" ["aaaaa"]) eq_refl) as H.
  cbv zeta in H. destruct H as (_ & H & _). exact H.
Defined.

(** * Topics, articles and their controllers *)

(** ** Adding and finding articles *)

Lemma filter_snoc {A} (f : A -> bool) (l : list A) (x : A) :
  List.filter f (l ++ [x])
  = (List.filter f l ++ (if f x then [x] else []))%list.
Proof.
  induction l as [|y l IH]; simpl.
  - now destruct (f x).
  - rewrite IH. now destruct (f y).
Qed.

Lemma author_eqb_refl (a : option nat) : Article.author_eqb a a = true.
Proof. destruct a; simpl; [apply Nat.eqb_refl | reflexivity]. Qed.

(** An article inserted for an author is the last of all articles, the last
    of that author's articles and the last of its topic's, whatever the
    other filter; every earlier result is kept in its place; and the
    article is published once. *)
Theorem inserted_article_is_found_last (tp : Topic.t) (txt : option string)
    (a : nat) (s : Article.Store) (byAuthor : option nat)
    (byTopic : option string) :
  byAuthor = None \/ byAuthor = Some a ->
  byTopic = None \/ byTopic = Some (Topic.id tp) ->
  let new := Article.mk tp txt (Some a) in
  let s1 := snd (Article.insert tp txt (Some a) s) in
  fst (Article.insert tp txt (Some a) s) = inr new
  /\ Article.findByAuthor byAuthor byTopic s1
     = (Article.findByAuthor byAuthor byTopic s ++ [new])%list
  /\ Article.published s1 = (Article.published s ++ [new])%list
  /\ Api.articles_index s1
     = Api.Json 200 (Article.findByAuthor None None s ++ [new])%list.
Proof.
  intros Ha Ht new s1; subst new s1.
  unfold Api.articles_index, Article.findByAuthor, Article.insert; simpl.
  rewrite !filter_snoc; simpl.
  repeat split.
  destruct Ha as [->| ->], Ht as [->| ->]; simpl;
    rewrite ?Nat.eqb_refl, ?String.eqb_refl; simpl;
    try reflexivity; now destruct (negb (truthy (Topic.id tp))).
Qed.

Lemma inserted_article_is_found_last_witness :
  Article.findByAuthor (Some 7%nat) None
    (snd (Article.insert (Topic.mk "flame" "creative criticism" "")
            (Some "hello") (Some 7%nat) (Article.mkStore [] [])))
  = (Article.findByAuthor (Some 7%nat) None (Article.mkStore [] [])
     ++ [Article.mk (Topic.mk "flame" "creative criticism" "") (Some "hello")
           (Some 7%nat)])%list.
Proof.
  pose proof (inserted_article_is_found_last
                (Topic.mk "flame" "creative criticism" "") (Some "hello") 7%nat
                (Article.mkStore [] []) (Some 7%nat) None
                (or_intror eq_refl) (or_introl eq_refl)) as H.
  cbv zeta in H. destruct H as (_ & H & _). exact H.
Defined.

(** What [findByAuthor] returns: exactly the stored articles that have the
    given author, when one is given, and the given topic, when a non-empty
    one is given; without either, all of them. *)
Theorem findByAuthor_selects (byAuthor : option nat) (byTopic : option string)
    (s : Article.Store) (x : Article.t) :
  (In x (Article.findByAuthor byAuthor byTopic s) <->
   In x (Article.articles s)
   /\ (byAuthor = None \/ Article.author x = byAuthor)
   /\ (truthy_opt byTopic = false \/ Some (Topic.id (Article.topic x)) = byTopic))
  /\ Article.findByAuthor None None s = Article.articles s
  /\ Article.findByAuthor byAuthor (Some "") s
     = Article.findByAuthor byAuthor None s.
Proof.
  split; [|split].
  - unfold Article.findByAuthor. rewrite filter_In.
    rewrite andb_true_iff, !orb_true_iff, !negb_true_iff, sub_eqb_eq.
    assert (Hau : Article.author_eqb (Article.author x) byAuthor = true
                  <-> Article.author x = byAuthor).
    { destruct (Article.author x) as [p|], byAuthor as [q|]; simpl;
        try (split; congruence).
      rewrite Nat.eqb_eq. split; congruence. }
    rewrite Hau.
    assert (Hn : is_Some_bool byAuthor = false <-> byAuthor = None)
      by (destruct byAuthor; simpl; split; congruence).
    rewrite Hn. tauto.
  - unfold Article.findByAuthor; simpl.
    induction (Article.articles s) as [|y l IH]; simpl; congruence.
  - unfold Article.findByAuthor; simpl. reflexivity.
Qed.

Lemma findByAuthor_selects_witness :
  Article.findByAuthor None None
    (Article.mkStore
       [Article.mk (Topic.mk "flame" "creative criticism" "") (Some "hello")
          (Some 7%nat)] [])
  = [Article.mk (Topic.mk "flame" "creative criticism" "") (Some "hello")
       (Some 7%nat)].
Proof.
  exact (proj1 (proj2 (findByAuthor_selects None None
                         (Article.mkStore
                            [Article.mk (Topic.mk "flame" "creative criticism" "")
                               (Some "hello") (Some 7%nat)] [])
                         (Article.mk (Topic.mk "flame" "creative criticism" "")
                            (Some "hello") (Some 7%nat))))).
Defined.

(** ** Creating an article *)

Lemma getById_listed (t : Topic.t) :
  In t Topic.topics -> Topic.getById (Some (Topic.id t)) = Some t.
Proof.
  unfold Topic.topics. simpl.
  intros [<-|[<-|[<-|[<-|[]]]]]; reflexivity.
Qed.

Lemma getById_sound (i : option string) (t : Topic.t) :
  Topic.getById i = Some t -> In t Topic.topics /\ i = Some (Topic.id t).
Proof.
  unfold Topic.getById. intros H. apply find_some in H as [Hin He].
  apply sub_eqb_eq in He. auto.
Qed.

(** What [create] does, case by case.  A request whose topic id is missing
    or names no listed topic is refused with 400 and nothing is stored,
    whatever else it carries; so is a request for a listed topic whose
    text is missing or empty.  For a listed topic and a non-empty text,
    with a member the article is stored last and published and the answer
    is 201 with it; without a member the article is stored, not
    published, and the controller throws.  For a listed topic and no
    [req.data] at all the controller throws and stores nothing. *)
Theorem create_outcomes (req : Api.ArticleRequest) (s : Article.Store) :
  ((forall t, In t Topic.topics -> Api.topicId req <> Some (Topic.id t)) ->
   Api.articles_create req s = (Api.Forward (httpErrors 400 "Bad Request"), s))
  /\ (forall t txt,
         In t Topic.topics -> Api.topicId req = Some (Topic.id t) ->
         Api.data req = Some txt -> truthy_opt txt = false ->
         Api.articles_create req s
         = (Api.Forward (httpErrors 400 "Bad Request"), s))
  /\ (forall t txt a,
         In t Topic.topics -> Api.topicId req = Some (Topic.id t) ->
         Api.data req = Some txt -> truthy_opt txt = true ->
         Api.member req = Some a ->
         Api.articles_create req s
         = (Api.Json 201 (Article.mk t txt (Some a)),
            Article.mkStore
              (Article.articles s ++ [Article.mk t txt (Some a)])
              (Article.published s ++ [Article.mk t txt (Some a)])))
  /\ (forall t txt,
         In t Topic.topics -> Api.topicId req = Some (Topic.id t) ->
         Api.data req = Some txt -> truthy_opt txt = true ->
         Api.member req = None ->
         Api.articles_create req s
         = (Api.Throws (TypeError "Cannot read property 'handle' of undefined"),
            Article.mkStore
              (Article.articles s ++ [Article.mk t txt None])
              (Article.published s)))
  /\ (forall t,
         In t Topic.topics -> Api.topicId req = Some (Topic.id t) ->
         Api.data req = None ->
         Api.articles_create req s
         = (Api.Throws (TypeError "Cannot read property 'text' of undefined"),
            s)).
Proof.
  unfold Api.articles_create. repeat split.
  - intros Hn.
    destruct (Topic.getById (Api.topicId req)) as [t|] eqn:Hg; [|reflexivity].
    apply getById_sound in Hg as [Hin Hid]. now apply Hn in Hin.
  - intros t txt Hin Hid Hd Ht.
    now rewrite Hid, (getById_listed t Hin), Hd, Ht.
  - intros t txt a Hin Hid Hd Ht Hm.
    rewrite Hid, (getById_listed t Hin), Hd, Ht. unfold Article.insert.
    now rewrite Hm.
  - intros t txt Hin Hid Hd Ht Hm.
    rewrite Hid, (getById_listed t Hin), Hd, Ht. unfold Article.insert.
    now rewrite Hm.
  - intros t Hin Hid Hd.
    now rewrite Hid, (getById_listed t Hin), Hd.
Qed.

Lemma create_outcomes_witness :
  Api.articles_create
    (Api.mkArticleRequest None (Some (Some "hello")) (Some 7%nat))
    (Article.mkStore [] [])
  = (Api.Forward (httpErrors 400 "Bad Request"), Article.mkStore [] []).
Proof.
  apply (proj1 (create_outcomes
                  (Api.mkArticleRequest None (Some (Some "hello")) (Some 7%nat))
                  (Article.mkStore [] []))).
  intros t _. discriminate.
Defined.

(** * Log identifiers *)

Lemma split_space_no_space (a : string) :
  Logs.no_space a = true -> split_space a = [a].
Proof.
  induction a as [|c a IH]; simpl; [reflexivity|].
  destruct (Ascii.eqb c " "%char); simpl; [discriminate|].
  intros H. now rewrite (IH H).
Qed.

Lemma split_space_app (a b : string) :
  Logs.no_space a = true ->
  split_space (a ++ String " "%char b) = a :: split_space b.
Proof.
  induction a as [|c a IH]; simpl; [reflexivity|].
  destruct (Ascii.eqb c " "%char); simpl; [discriminate|].
  intros H. now rewrite (IH H).
Qed.

Lemma split_space_three (t r s : string) :
  Logs.no_space t = true -> Logs.no_space r = true -> Logs.no_space s = true ->
  split_space (String.concat " " [t; r; s]) = [t; r; s].
Proof.
  intros Ht Hr Hs. simpl.
  change (t ++ " " ++ r ++ " " ++ s)
    with (t ++ String " "%char (r ++ String " "%char s)).
  now rewrite (split_space_app _ _ Ht), (split_space_app _ _ Hr),
    (split_space_no_space _ Hs).
Qed.

Lemma js_or_empty (x : string) : js_or (Some x) "" = x.
Proof.
  unfold js_or, truthy. destruct (String.eqb x "") eqn:H; simpl; [|reflexivity].
  apply String.eqb_eq in H. now subst.
Qed.

(** ** Identifying again *)

Lemma identifyObject_again {A : Type} (obj : A) (t r s : string)
    (options : Logs.IdOptions A) (g : Logs.Ids) :
  Logs.no_space t = true ->
  Logs.no_space r = true ->
  Logs.no_space s = true ->
  (truthy r = true ->
   Logs.identifyObject obj (Some (String.concat " " [t; r; s])) options g
   = (String.concat " "
        [js_or (Logs.call (Logs.getTrustLevel options) obj) (js_or (Some t) "U");
         r;
         js_or (Logs.call (Logs.getSessionId options) obj) (js_or (Some s) "-")],
      g))
  /\ (truthy r = false ->
      Logs.identifyObject obj (Some (String.concat " " [t; r; s])) options g
      = (String.concat " "
           [js_or (Logs.call (Logs.getTrustLevel options) obj)
              (js_or (Some t) "U");
            Logs.random g (Logs.drawn g);
            js_or (Logs.call (Logs.getSessionId options) obj)
              (js_or (Some s) "-")],
         Logs.mkIds (Logs.random g) (S (Logs.drawn g)))).
Proof.
  intros Ht Hr Hs.
  unfold Logs.identifyObject. rewrite js_or_empty.
  rewrite (split_space_three t r s Ht Hr Hs).
  cbn [lookup list_lookup]. split; intros Hrr; now rewrite Hrr.
Qed.

(** Identifying an object that has a log ID of three space-free fields
    keeps its request ID and draws no new one; the trust level and the
    session ID are the getters' values where these are non-empty and the
    old fields otherwise.  Without getters, and with non-empty fields, the
    log ID is unchanged.  With an empty request ID a new one is drawn. *)
Theorem identifyObject_keeps_request_id {A : Type} (obj : A) (t r s : string)
    (options : Logs.IdOptions A) (g : Logs.Ids) :
  Logs.no_space t = true ->
  Logs.no_space r = true ->
  Logs.no_space s = true ->
  let logId := String.concat " " [t; r; s] in
  let t1 := js_or (Logs.call (Logs.getTrustLevel options) obj)
              (js_or (Some t) "U") in
  let s1 := js_or (Logs.call (Logs.getSessionId options) obj)
              (js_or (Some s) "-") in
  (truthy r = true ->
   Logs.identifyObject obj (Some logId) options g
   = (String.concat " " [t1; r; s1], g))
  /\ (truthy r = true -> truthy t = true -> truthy s = true ->
      Logs.identifyObject obj (Some logId) (Logs.mkIdOptions None None) g
      = (logId, g))
  /\ (truthy r = false ->
      Logs.identifyObject obj (Some logId) options g
      = (String.concat " " [t1; Logs.random g (Logs.drawn g); s1],
         Logs.mkIds (Logs.random g) (S (Logs.drawn g)))).
Proof.
  intros Ht Hr Hs logId t1 s1; subst logId t1 s1.
  destruct (identifyObject_again obj t r s options g Ht Hr Hs) as [Hk Hd].
  split; [exact Hk|]. split; [|exact Hd].
  intros Hrr Htt Hss.
  destruct (identifyObject_again obj t r s (Logs.mkIdOptions None None) g
              Ht Hr Hs) as [Hk0 _].
  rewrite (Hk0 Hrr). cbn -[String.concat]. now rewrite Htt, Hss.
Qed.

Lemma identifyObject_keeps_request_id_witness :
  Logs.identifyObject empty_session (Some (String.concat " " ["U"; "k3x9a"; "-"]))
    Logs.server_authenticating (Logs.mkIds (fun _ => "zzzzz") 0)
  = (String.concat " " ["A"; "k3x9a"; "-"], Logs.mkIds (fun _ => "zzzzz") 0).
Proof.
  apply (identifyObject_keeps_request_id empty_session "U" "k3x9a" "-"
           Logs.server_authenticating (Logs.mkIds (fun _ => "zzzzz") 0));
    reflexivity.
Defined.

(** ** The log ID of a request on the server *)

(** The server identifies each request three times.  When the generated
    request ID is non-empty, the log ID goes from [U id -] over [A id -]
    to [T id sub], with the subject of the session (or [-] when there is
    none), and only one ID is generated. *)
Theorem server_log_id (before after : Session) (g : Logs.Ids) :
  truthy (Logs.random g (Logs.drawn g)) = true ->
  Logs.no_space (Logs.random g (Logs.drawn g)) = true ->
  let id := Logs.random g (Logs.drawn g) in
  let first := Logs.identifyObject before None Logs.server_untrusted g in
  let second := Logs.identifyObject before (Some (fst first))
                  Logs.server_authenticating (snd first) in
  let third := Logs.identifyObject after (Some (fst second))
                 Logs.server_trusted (snd second) in
  fst first = String.concat " " ["U"; id; "-"]
  /\ fst second = String.concat " " ["A"; id; "-"]
  /\ fst third = String.concat " " ["T"; id; js_or (session_sub after) "-"]
  /\ snd third = Logs.mkIds (Logs.random g) (S (Logs.drawn g)).
Proof.
  intros Hid Hns id first second third.
  assert (H1 : first = (String.concat " " ["U"; id; "-"],
                        Logs.mkIds (Logs.random g) (S (Logs.drawn g))))
    by reflexivity.
  assert (H2 : second = (String.concat " " ["A"; id; "-"],
                         Logs.mkIds (Logs.random g) (S (Logs.drawn g)))).
  { subst second. rewrite H1. cbn [fst snd].
    destruct (identifyObject_again before "U" id "-"
                Logs.server_authenticating
                (Logs.mkIds (Logs.random g) (S (Logs.drawn g))))
      as [H _]; try reflexivity; try assumption.
    now rewrite H. }
  assert (H3 : third = (String.concat " " ["T"; id; js_or (session_sub after) "-"],
                        Logs.mkIds (Logs.random g) (S (Logs.drawn g)))).
  { subst third. rewrite H2. cbn [fst snd].
    destruct (identifyObject_again after "A" id "-" Logs.server_trusted
                (Logs.mkIds (Logs.random g) (S (Logs.drawn g))))
      as [H _]; try reflexivity; try assumption.
    now rewrite H. }
  rewrite H1, H2, H3. repeat split.
Qed.

Lemma server_log_id_witness :
  fst (Logs.identifyObject Sample.cookieSession
         (Some (fst (Logs.identifyObject empty_session
                       (Some (fst (Logs.identifyObject empty_session None
                                     Logs.server_untrusted
                                     (Logs.mkIds (fun _ => "k3x9a") 0))))
                       Logs.server_authenticating
                       (snd (Logs.identifyObject empty_session None
                               Logs.server_untrusted
                               (Logs.mkIds (fun _ => "k3x9a") 0))))))
         Logs.server_trusted
         (snd (Logs.identifyObject empty_session
                 (Some (fst (Logs.identifyObject empty_session None
                               Logs.server_untrusted
                               (Logs.mkIds (fun _ => "k3x9a") 0))))
                 Logs.server_authenticating
                 (snd (Logs.identifyObject empty_session None
                         Logs.server_untrusted
                         (Logs.mkIds (fun _ => "k3x9a") 0))))))
  = "T k3x9a aaaaa".
Proof.
  pose proof (server_log_id empty_session Sample.cookieSession
                (Logs.mkIds (fun _ => "k3x9a") 0) eq_refl eq_refl) as H.
  cbv zeta in H. destruct H as (_ & _ & H & _). exact H.
Defined.
